(** * models.py: Book, BookCollection, IndexDict, Library

    A shallow embedding of [src/models.py] and the properties of the
    catalogue that its specification states.

    Python objects become records, [list] becomes [list], [dict] becomes
    stdpp's [gmap], [set] becomes [gset].  A method that mutates [self]
    is a function from the object's state to a result and the new state;
    a method that can raise lives in the small exception/state monad [M]
    below, so that the state left behind by an exception is visible. *)

From Stdlib Require Import ZArith String.
From stdpp Require Import gmap strings list fin_maps fin_sets.

Local Open Scope Z_scope.

(** ** Values and exceptions *)

(** [class Book]: five fields, no validation in [__init__]. *)
Record Book := mkBook {
  title  : string;
  author : string;
  year   : Z;
  genre  : string;
  isbn   : string
}.

#[global] Instance Book_eq_dec : EqDecision Book.
Proof. solve_decision. Defined.

(** The exceptions that the modelled methods can raise. *)
Inductive exn := TypeError | IndexError | ValueError | AttributeError.

#[global] Instance exn_eq_dec : EqDecision exn.
Proof. solve_decision. Defined.

(** A dynamically typed Python value, as far as the methods of this module
    distinguish them: an instance of [Book], a [str], or anything else (an
    [int], a [bool], [None]). *)
Inductive pyval :=
  | VBook (b : Book)
  | VStr (s : string)
  | VInt (z : Z)
  | VBool (b : bool)
  | VNone.

(** [isinstance(x, Book)] and [isinstance(x, str)]. *)
Definition isinstance_Book (x : pyval) : bool :=
  match x with VBook _ => true | _ => false end.

Definition isinstance_str (x : pyval) : bool :=
  match x with VStr _ => true | _ => false end.

(** [Book.__eq__]: equal iff the other value is a [Book] with the same
    isbn. *)
Definition Book__eq__ (self : Book) (other : pyval) : bool :=
  match other with
  | VBook o => bool_decide (isbn self = isbn o)
  | _ => false
  end.

(** ** The exception/state monad *)

(** A computation over a mutable object of type [St]: it returns a value
    or raises, and in both cases leaves a state behind. *)
Definition M (St A : Type) : Type := St → (exn + A) * St.

#[global] Instance M_ret {St} : MRet (M St) := λ A a s, (inr a, s).
#[global] Instance M_bind {St} : MBind (M St) := λ A B k m s,
  match m s with
  | (inr a, s') => k a s'
  | (inl e, s') => (inl e, s')
  end.
Definition raise {St A} (e : exn) : M St A := λ s, (inl e, s).
Definition get {St} : M St St := λ s, (inr s, s).
Definition put {St} (s : St) : M St unit := λ _, (inr tt, s).
Definition modify {St} (f : St → St) : M St unit := λ s, (inr tt, f s).

(** Run a method of a component object (an attribute of [self]) inside a
    method of the enclosing object. *)
Definition on_attr {St T A} (proj : St → T) (upd : T → St → St)
    (m : M T A) : M St A :=
  λ s, let '(r, t) := m (proj s) in (r, upd t s).

(** ** Python list primitives used by the module *)

Section py_list.
Context {A : Type}.

(** The item at the (already normalised) position [j], if there is
    one. *)
Definition item_at (l : list A) (j : Z) : option A :=
  if decide (0 ≤ j) then l !! Z.to_nat j else None.

(** [l[i]] for an integer [i]: a negative index counts from the end;
    [None] stands for [IndexError]. *)
Definition list_index (l : list A) (i : Z) : option A :=
  let n := Z.of_nat (length l) in
  let j := if decide (i < 0) then i + n else i in
  if decide (0 ≤ j < n) then item_at l j else None.

(** [l.pop(i)] for an index already known to be in range: the list
    without position [i]. *)
Definition list_pop (l : list A) (i : nat) : list A := delete i l.

(** [slice.indices(len)]: the clamped [(start, stop)] of a slice whose
    step is [step ≠ 0]; an absent bound is [None]. *)
Definition slice_adjust (n : Z) (start stop : option Z) (step : Z)
    : Z * Z :=
  let lower := if decide (step < 0) then -1 else 0 in
  let upper := if decide (step < 0) then n - 1 else n in
  let clamp (v : Z) :=
    if decide (v < 0) then Z.max (v + n) lower else Z.min v upper in
  let start' :=
    match start with
    | None => if decide (step < 0) then upper else lower
    | Some v => clamp v
    end in
  let stop' :=
    match stop with
    | None => if decide (step < 0) then lower else upper
    | Some v => clamp v
    end in
  (start', stop').

(** Number of positions that the adjusted slice visits. *)
Definition slice_length (start stop step : Z) : nat :=
  if decide (step < 0) then
    if decide (stop < start)
    then Z.to_nat ((start - stop - 1) `div` (- step) + 1) else 0%nat
  else
    if decide (start < stop)
    then Z.to_nat ((stop - start - 1) `div` step + 1) else 0%nat.

(** The copying loop of a slice read:
    [for (cur = start, i = 0; i < count; cur += step, i++)]. *)
Fixpoint slice_items (l : list A) (cur step : Z) (count : nat) : list A :=
  match count with
  | O => []
  | S c =>
      match item_at l cur with
      | Some x => x :: slice_items l (cur + step) step c
      | None => slice_items l (cur + step) step c
      end
  end.

(** [l[start:stop:step]]; [None] stands for
    [ValueError("slice step cannot be zero")]. *)
Definition list_slice (l : list A) (start stop step : option Z)
    : option (list A) :=
  let st := default 1 step in
  if decide (st = 0) then None
  else
    let '(a, b) := slice_adjust (Z.of_nat (length l)) start stop st in
    Some (slice_items l a st (slice_length a b st)).
End py_list.

(** [x in l] and [l.remove(x)] on a list of books compare with
    [Book.__eq__]. *)
Definition list_contains (l : list Book) (x : pyval) : bool :=
  existsb (λ e, Book__eq__ e x) l.

Definition list_remove (l : list Book) (x : Book) : list Book :=
  match list_find (λ e, isbn e = isbn x) l with
  | Some (i, _) => delete i l
  | None => l
  end.

(** ** class BookCollection *)

Module BookCollection.

Record t := mk { _books : list Book }.

Definition __init__ : t := mk [].

Definition add (book : pyval) : M t unit :=
  match book with
  | VBook b => modify (λ self, mk (_books self ++ [b]))
  | _ => raise TypeError
  end.

(** The loop over [enumerate(self._books)] stops at the first book with
    the given isbn and pops it. *)
Definition remove (k : string) : M t bool :=
  self ← get;
  match list_find (λ book, isbn book = k) (_books self) with
  | Some (i, _) => put (mk (list_pop (_books self) i));; mret true
  | None => mret false
  end.

Definition remove_at_index (index : Z) : M t (option Book) :=
  self ← get;
  if decide (0 ≤ index < Z.of_nat (length (_books self))) then
    put (mk (list_pop (_books self) (Z.to_nat index)));;
    mret (_books self !! Z.to_nat index)
  else mret None.

Definition clear : M t unit := put (mk []).

(** The argument of [__getitem__]: an [int] or a [slice] of optional
    integer bounds. *)
Inductive key :=
  | KInt (i : Z)
  | KSlice (start stop step : option Z).

(** Its result: one book, or a list of books. *)
Inductive item :=
  | One (b : Book)
  | Many (l : list Book).

Definition __getitem__ (self : t) (k : key) : exn + item :=
  match k with
  | KInt i =>
      match list_index (_books self) i with
      | Some b => inr (One b)
      | None => inl IndexError
      end
  | KSlice start stop step =>
      match list_slice (_books self) start stop step with
      | Some l => inr (Many l)
      | None => inl ValueError
      end
  end.

Definition __iter__ (self : t) : list Book := _books self.

Definition __len__ (self : t) : nat := length (_books self).

Definition __contains__ (self : t) (x : pyval) : bool :=
  if isinstance_Book x then list_contains (_books self) x
  else match x with
       | VStr s => existsb (λ book, bool_decide (isbn book = s)) (_books self)
       | _ => false
       end.

End BookCollection.

(** ** class IndexDict *)

Module IndexDict.

Record t := mk {
  _by_isbn   : gmap string Book;
  _by_author : gmap string (list Book);
  _by_year   : gmap Z (list Book)
}.

Definition __init__ : t := mk ∅ ∅ ∅.

(** [if key not in d: d[key] = []] followed by [d[key].append(book)]. *)
Definition bucket_append `{Countable K} (d : gmap K (list Book))
    (k : K) (book : Book) : gmap K (list Book) :=
  let d1 := if decide (d !! k = None) then <[k := []]> d else d in
  alter (λ bucket : list Book, bucket ++ [book]) k d1.

(** [if key in d: if book in d[key]: d[key].remove(book);
    if not d[key]: del d[key]]. *)
Definition bucket_remove `{Countable K} (d : gmap K (list Book))
    (k : K) (book : Book) : gmap K (list Book) :=
  match d !! k with
  | Some bucket =>
      if list_contains bucket (VBook book) then
        let bucket' := list_remove bucket book in
        match bucket' with
        | [] => delete k d
        | _ => <[k := bucket']> d
        end
      else d
  | None => d
  end.

(** Reading [book.isbn] of a value that is not a [Book] raises
    [AttributeError]. *)
Definition add_book (book : pyval) : M t unit :=
  match book with
  | VBook b =>
      modify (λ self,
        mk (<[isbn b := b]> (_by_isbn self))
           (bucket_append (_by_author self) (author b) b)
           (bucket_append (_by_year self) (year b) b))
  | _ => raise AttributeError
  end.

Definition remove_book (book : Book) : M t bool :=
  self ← get;
  let removed := bool_decide (is_Some (_by_isbn self !! isbn book)) in
  let by_isbn := if removed then delete (isbn book) (_by_isbn self)
                 else _by_isbn self in
  put (mk by_isbn
          (bucket_remove (_by_author self) (author book) book)
          (bucket_remove (_by_year self) (year book) book));;
  mret removed.

Definition get_by_isbn (self : t) (k : string) : option Book :=
  _by_isbn self !! k.

Definition get_by_author (self : t) (a : string) : list Book :=
  default [] (_by_author self !! a).

Definition get_by_year (self : t) (y : Z) : list Book :=
  default [] (_by_year self !! y).

Definition __getitem__ (self : t) (k : string) : option Book :=
  _by_isbn self !! k.

Definition __contains__ (self : t) (k : string) : bool :=
  bool_decide (is_Some (_by_isbn self !! k)).

Definition __len__ (self : t) : nat := size (_by_isbn self).

End IndexDict.

(** ** class Library *)

Module Library.

Record t := mk {
  name    : string;
  books   : BookCollection.t;
  indexes : IndexDict.t
}.

Definition __init__ (name : string) : t :=
  mk name BookCollection.__init__ IndexDict.__init__.

Definition set_books (c : BookCollection.t) (self : t) : t :=
  mk (name self) c (indexes self).

Definition set_indexes (d : IndexDict.t) (self : t) : t :=
  mk (name self) (books self) d.

(** [self.books.m(...)] and [self.indexes.m(...)]. *)
Definition self_books {A} (m : M BookCollection.t A) : M t A :=
  on_attr books set_books m.

Definition self_indexes {A} (m : M IndexDict.t A) : M t A :=
  on_attr indexes set_indexes m.

Definition add_book (book : pyval) : M t unit :=
  self_books (BookCollection.add book);;
  self_indexes (IndexDict.add_book book).

(** A [Book] defines neither [__bool__] nor [__len__], so [if book:] is
    the test that the lookup did not return [None]. *)
Definition remove_book (k : string) : M t bool :=
  self ← get;
  match IndexDict.get_by_isbn (indexes self) k with
  | Some book =>
      self_books (BookCollection.remove k);;
      self_indexes (IndexDict.remove_book book);;
      mret true
  | None => mret false
  end.

Definition search_by_isbn (self : t) (k : string) : option Book :=
  IndexDict.get_by_isbn (indexes self) k.

Definition search_by_author (self : t) (a : string) : list Book :=
  IndexDict.get_by_author (indexes self) a.

Definition search_by_year (self : t) (y : Z) : list Book :=
  IndexDict.get_by_year (indexes self) y.

(** The loop [for book in self.books: if book.genre == genre:
    results.append(book)], with [results] as the accumulator. *)
Definition search_by_genre (self : t) (g : string) : list Book :=
  foldl (λ results book,
           if decide (genre book = g) then results ++ [book] else results)
        [] (BookCollection.__iter__ (books self)).

Definition get_all_books (self : t) : BookCollection.t := books self.

(** The dictionary that [get_statistics] returns. *)
Record statistics := mkStatistics {
  total_books    : nat;
  unique_authors : nat;
  year_range     : option (Z * Z);
  genres         : list string
}.

(** [min(s)] and [max(s)] of a non-empty set, and the whole expression
    [(min(years), max(years)) if years else None]. *)
Definition years_range (years : gset Z) : option (Z * Z) :=
  match elements years with
  | [] => None
  | y :: ys => Some (foldl Z.min y ys, foldl Z.max y ys)
  end.

(** The three sets after the loop over [self.books]. *)
Definition collect (l : list Book) : gset string * gset Z * gset string :=
  foldl (λ '(authors, years, genres) book,
           ({[author book]} ∪ authors,
            {[year book]} ∪ years,
            {[genre book]} ∪ genres))
        (∅, ∅, ∅) l.

Definition get_statistics (self : t) : statistics :=
  let '(authors, years, genres) :=
    collect (BookCollection.__iter__ (books self)) in
  mkStatistics (BookCollection.__len__ (books self))
               (size authors)
               (years_range years)
               (elements genres).

End Library.

(** ** Runs of catalogue operations *)

(** One call on a [Library] by a client. *)
Inductive op :=
  | AddBook (x : pyval)
  | RemoveBook (k : string).

(** The library after the call, whether it returned or raised. *)
Definition step (s : Library.t) (o : op) : Library.t :=
  match o with
  | AddBook x => (Library.add_book x s).2
  | RemoveBook k => (Library.remove_book k s).2
  end.

Definition run (s : Library.t) (ops : list op) : Library.t :=
  foldl step s ops.

(** Every [add_book] in the run is given a book whose isbn is not in the
    isbn index at that moment. *)
Fixpoint fresh_adds (s : Library.t) (ops : list op) : bool :=
  match ops with
  | [] => true
  | o :: rest =>
      match o with
      | AddBook (VBook b) =>
          negb (IndexDict.__contains__ (Library.indexes s) (isbn b))
      | _ => true
      end && fresh_adds (step s o) rest
  end.

(** [add_book] called on each book of a list in turn. *)
Definition add_all (s : Library.t) (bs : list Book) : Library.t :=
  run s (AddBook ∘ VBook <$> bs).

(** ** Sample data *)

Definition bookA1 : Book := mkBook "T1" "X" 2000 "Fiction" "A1".
Definition bookA2 : Book := mkBook "T2" "X" 2001 "Drama" "A2".
Definition bookA1' : Book := mkBook "T3" "Y" 1999 "Poetry" "A1".
Definition lib0 : Library.t := Library.__init__ "Main Library".

(** ** Definitions used to state the properties *)

(** The specification's reading of the genre search: the books of
    [get_all()] whose genre is the one asked for, in their order. *)
Definition filter_by_genre (self : Library.t) (g : string) : list Book :=
  filter (λ book, genre book = g)
         (BookCollection._books (Library.get_all_books self)).

(** A bound of [l[start:stop]] as the specification words it: an absent
    bound is the given default, a negative one counts from the end, and
    the result is clamped to [0..n]. *)
Definition clamped_bound (n : nat) (v : option Z) (dflt : nat) : nat :=
  match v with
  | None => dflt
  | Some z =>
      if decide (z < 0) then Z.to_nat (Z.max (z + Z.of_nat n) 0)
      else Z.to_nat (Z.min z (Z.of_nat n))
  end.

(** The sequence holds each isbn once, the keys of the isbn index are the
    isbns of the sequence, and each key is the isbn of its book. *)
Definition consistent (s : Library.t) : Prop :=
  let l := BookCollection._books (Library.books s) in
  let m := IndexDict._by_isbn (Library.indexes s) in
  NoDup (isbn <$> l) ∧
  dom m = list_to_set (isbn <$> l) ∧
  ∀ k b, m !! k = Some b → isbn b = k.

(** No key of an index map holds an empty bucket. *)
Definition no_empty_bucket `{Countable K} (d : gmap K (list Book)) : Prop :=
  ∀ k, d !! k ≠ Some [].

(** The bucket that grouping the books [l] by [key] gives to [k]: the
    books with that key in their order, and no bucket when there is
    none. *)
Definition group_lookup {K} `{EqDecision K} (key : Book → K)
    (l : list Book) (k : K) : option (list Book) :=
  match filter (λ b, key b = k) l with
  | [] => None
  | bs => Some bs
  end.

(** The three maps of the index are the sequence grouped by isbn, by
    author and by year, and the sequence holds each isbn once. *)
Definition synced (s : Library.t) : Prop :=
  let l := BookCollection._books (Library.books s) in
  let d := Library.indexes s in
  NoDup (isbn <$> l) ∧
  (∀ k, IndexDict._by_isbn d !! k = head (filter (λ b, isbn b = k) l)) ∧
  (∀ a, IndexDict._by_author d !! a = group_lookup author l a) ∧
  (∀ y, IndexDict._by_year d !! y = group_lookup year l y).

(** Every entry of the isbn index is filed under the isbn of its book,
    and that book is in the sequence. *)
Definition index_in_sequence (s : Library.t) : Prop :=
  ∀ k b, IndexDict._by_isbn (Library.indexes s) !! k = Some b →
    isbn b = k ∧ b ∈ BookCollection._books (Library.books s).

(** * Properties *)

(** ** Unfolding the methods *)

Lemma self_books_eta (s : Library.t) :
  Library.set_books (Library.books s) s = s.
Proof. by destruct s. Qed.

Lemma add_book_Book (b : Book) (s : Library.t) :
  Library.add_book (VBook b) s =
    (inr (),
     Library.mk (Library.name s)
       (BookCollection.mk (BookCollection._books (Library.books s) ++ [b]))
       (IndexDict.mk
          (<[isbn b := b]> (IndexDict._by_isbn (Library.indexes s)))
          (IndexDict.bucket_append
             (IndexDict._by_author (Library.indexes s)) (author b) b)
          (IndexDict.bucket_append
             (IndexDict._by_year (Library.indexes s)) (year b) b))).
Proof. reflexivity. Qed.

Lemma add_book_not_Book (x : pyval) (s : Library.t) :
  isinstance_Book x = false →
  Library.add_book x s = (inl TypeError, s).
Proof.
  intros Hx. destruct x; try discriminate Hx;
    cbv [Library.add_book Library.self_books on_attr mbind M_bind
         BookCollection.add raise];
    by rewrite self_books_eta.
Qed.

Lemma remove_book_absent (k : string) (s : Library.t) :
  IndexDict._by_isbn (Library.indexes s) !! k = None →
  Library.remove_book k s = (inr false, s).
Proof.
  intros Hk.
  cbv [Library.remove_book mbind M_bind get IndexDict.get_by_isbn].
  by rewrite Hk.
Qed.

(** What [remove_book] does when the isbn index knows the isbn. *)
Lemma remove_book_present (k : string) (book : Book) (s : Library.t) :
  IndexDict._by_isbn (Library.indexes s) !! k = Some book →
  Library.remove_book k s =
    (inr true,
     Library.mk (Library.name s)
       (BookCollection.remove k (Library.books s)).2
       (IndexDict.remove_book book (Library.indexes s)).2).
Proof.
  intros Hk.
  cbv [Library.remove_book mbind M_bind get IndexDict.get_by_isbn
       Library.self_books Library.self_indexes on_attr].
  rewrite Hk.
  destruct (BookCollection.remove k (Library.books s)) as [[e|r] c] eqn:Hc.
  { exfalso. revert Hc.
    cbv [BookCollection.remove mbind M_bind get put mret M_ret].
    by destruct (list_find _ _) as [[? ?]|]. }
  simpl.
  destruct (IndexDict.remove_book book (Library.indexes s)) as [[e|r'] d] eqn:Hd.
  { exfalso. revert Hd. by cbv [IndexDict.remove_book mbind M_bind get put]. }
  reflexivity.
Qed.

(** ** Adding a value that is not a Book *)

(** C4: for every library and every value that is not a [Book],
    [add_book] raises [TypeError] and leaves the whole library (the
    sequence and the three index maps) as it was: the exception comes from
    the type check of the collection, before the index is touched. *)
Theorem add_book_type_error (s : Library.t) (x : pyval) :
  isinstance_Book x = false →
  Library.add_book x s = (inl TypeError, s).
Proof. apply add_book_not_Book. Qed.

Lemma add_book_type_error_witness :
  Library.add_book (VStr "A1") (add_all lib0 [bookA1]) =
    (inl TypeError, add_all lib0 [bookA1]).
Proof. apply (add_book_type_error (add_all lib0 [bookA1]) (VStr "A1")). reflexivity. Defined.

(** ** Removing an isbn that the index does not know *)

(** C5: for every library and every isbn that is not a key of the isbn
    index, [remove_book] returns [False] without raising, and the library
    (isbn, author and year maps and the sequence) is unchanged. *)
Theorem remove_book_unknown (s : Library.t) (k : string) :
  IndexDict._by_isbn (Library.indexes s) !! k = None →
  Library.remove_book k s = (inr false, s).
Proof. apply remove_book_absent. Qed.

Lemma remove_book_unknown_witness :
  Library.remove_book "A2" (add_all lib0 [bookA1]) =
    (inr false, add_all lib0 [bookA1]).
Proof.
  apply (remove_book_unknown (add_all lib0 [bookA1]) "A2").
  vm_compute. reflexivity.
Defined.

(** ** Two books with one isbn *)

(** C2: for every library and every two books with the same isbn, after
    [add_book b1] and [add_book b2] both calls have returned, the isbn
    index maps that isbn to [b2] and has not grown with the second call,
    and the sequence is the old one followed by [b1] and then [b2]. *)
Theorem add_same_isbn_twice (s : Library.t) (b1 b2 : Book) :
  isbn b1 = isbn b2 →
  let r1 := Library.add_book (VBook b1) s in
  let r2 := Library.add_book (VBook b2) r1.2 in
  r1.1 = inr () ∧ r2.1 = inr () ∧
  Library.search_by_isbn r2.2 (isbn b1) = Some b2 ∧
  IndexDict.__len__ (Library.indexes r2.2) = IndexDict.__len__ (Library.indexes r1.2) ∧
  BookCollection._books (Library.get_all_books r2.2) =
    BookCollection._books (Library.get_all_books s) ++ [b1; b2].
Proof.
  intros Heq. rewrite !add_book_Book. simpl.
  cbv [Library.search_by_isbn IndexDict.get_by_isbn IndexDict.__len__]. simpl.
  repeat split.
  - rewrite Heq. apply lookup_insert_eq.
  - rewrite <- Heq, insert_insert_eq.
    rewrite !map_size_insert. reflexivity.
  - by rewrite <- app_assoc.
Qed.

Lemma add_same_isbn_twice_witness :
  Library.search_by_isbn
    (Library.add_book (VBook bookA1')
       (Library.add_book (VBook bookA1) lib0).2).2 "A1" = Some bookA1'.
Proof.
  pose proof (add_same_isbn_twice lib0 bookA1 bookA1' eq_refl) as H.
  exact (proj1 (proj2 (proj2 H))).
Defined.

(** ** Search by genre *)

Lemma genre_loop (g : string) (l acc : list Book) :
  foldl (λ results book,
           if decide (genre book = g) then results ++ [book] else results)
        acc l
  = acc ++ filter (λ book, genre book = g) l.
Proof.
  revert acc. induction l as [|b l IH]; intros acc; simpl.
  - by rewrite app_nil_r.
  - rewrite IH. rewrite filter_cons. destruct (decide (genre b = g)).
    + by rewrite <- app_assoc.
    + done.
Qed.

(** C6: for every library (reachable or not) and every genre, the loop of
    [search_by_genre] returns exactly the books of [get_all()] with that
    genre, in insertion order; no index is read. *)
Theorem search_by_genre_is_filter (s : Library.t) (g : string) :
  Library.search_by_genre s g = filter_by_genre s g.
Proof.
  unfold Library.search_by_genre, filter_by_genre, BookCollection.__iter__,
    Library.get_all_books.
  by rewrite genre_loop.
Qed.

(** ** Membership *)

(** C9: for every collection and every value that is neither a [Book] nor
    a [str], the membership test answers [False]; the method has no
    raising path. *)
Theorem contains_other_is_false (c : BookCollection.t) (x : pyval) :
  isinstance_Book x = false →
  isinstance_str x = false →
  BookCollection.__contains__ c x = false.
Proof.
  intros HB HS. unfold BookCollection.__contains__. rewrite HB.
  by destruct x.
Qed.

Lemma contains_other_is_false_witness :
  BookCollection.__contains__ (BookCollection.mk [bookA1; bookA2]) (VInt 0)
  = false.
Proof.
  apply (contains_other_is_false (BookCollection.mk [bookA1; bookA2]) (VInt 0));
    reflexivity.
Defined.

(** ** Positional removal *)

Lemma list_index_negative {A} (l : list A) (i : Z) :
  - Z.of_nat (length l) ≤ i < 0 →
  list_index l i = l !! Z.to_nat (i + Z.of_nat (length l)) ∧
  is_Some (list_index l i).
Proof.
  intros Hi. unfold list_index, item_at. cbv zeta.
  destruct (decide (i < 0)); [|lia].
  repeat case_decide; try lia.
  split; [done|]. apply lookup_lt_is_Some. lia.
Qed.

(** C10: for every collection and every negative index,
    [remove_at_index] returns [None] and removes nothing, whereas the
    indexed read of the same index, when it is at least [-len], does
    return a book. *)
Theorem remove_at_index_negative (c : BookCollection.t) (i : Z) :
  i < 0 →
  BookCollection.remove_at_index i c = (inr None, c) ∧
  (- Z.of_nat (BookCollection.__len__ c) ≤ i →
   ∃ b, BookCollection.__getitem__ c (BookCollection.KInt i)
        = inr (BookCollection.One b)).
Proof.
  intros Hi. split.
  - cbv [BookCollection.remove_at_index mbind M_bind get].
    by rewrite decide_False by lia.
  - intros Hn. unfold BookCollection.__getitem__.
    destruct (list_index_negative (BookCollection._books c) i) as [_ [b Hb]].
    { unfold BookCollection.__len__ in Hn. lia. }
    exists b. by rewrite Hb.
Qed.

Lemma remove_at_index_negative_witness :
  BookCollection.remove_at_index (-1) (BookCollection.mk [bookA1; bookA2])
  = (inr None, BookCollection.mk [bookA1; bookA2]).
Proof.
  apply (remove_at_index_negative (BookCollection.mk [bookA1; bookA2]) (-1)).
  lia.
Defined.

Example getitem_last :
  BookCollection.__getitem__ (BookCollection.mk [bookA1; bookA2])
    (BookCollection.KInt (-1)) = inr (BookCollection.One bookA2).
Proof. reflexivity. Qed.

(** ** Statistics *)

Lemma union_shift `{Countable K} (x : K) (S A : gset K) :
  S ∪ ({[x]} ∪ A) = {[x]} ∪ S ∪ A.
Proof. rewrite (assoc_L (∪)). f_equal. apply (comm_L (∪)). Qed.

Lemma collect_loop (l : list Book) (A : gset string) (Y : gset Z)
    (G : gset string) :
  foldl (λ '(authors, years, genres) book,
           ({[author book]} ∪ authors,
            {[year book]} ∪ years,
            {[genre book]} ∪ genres))
        (A, Y, G) l
  = (list_to_set (author <$> l) ∪ A,
     list_to_set (year <$> l) ∪ Y,
     list_to_set (genre <$> l) ∪ G).
Proof.
  revert A Y G. induction l as [|b l IH]; intros A Y G; simpl.
  - by rewrite !(left_id_L ∅ (∪)).
  - rewrite IH. f_equal; [f_equal|]; apply union_shift.
Qed.

Lemma collect_spec (l : list Book) :
  Library.collect l =
    (list_to_set (author <$> l), list_to_set (year <$> l),
     list_to_set (genre <$> l)).
Proof.
  unfold Library.collect. rewrite collect_loop.
  by rewrite !(right_id_L ∅ (∪)).
Qed.

Lemma size_distinct `{Countable K} (l : list K) :
  size (list_to_set l : gset K) = length (remove_dups l).
Proof.
  rewrite <- (size_list_to_set (C := gset K) (remove_dups l))
    by apply NoDup_remove_dups.
  f_equal. apply set_eq. intros x.
  by rewrite !elem_of_list_to_set, elem_of_remove_dups.
Qed.

Lemma foldl_min_spec (y : Z) (ys : list Z) :
  foldl Z.min y ys ∈ y :: ys ∧ ∀ z, z ∈ y :: ys → foldl Z.min y ys ≤ z.
Proof.
  revert y. induction ys as [|a ys IH]; intros y; simpl.
  - split; [by left|]. intros z Hz.
    apply list_elem_of_singleton in Hz. lia.
  - destruct (IH (Z.min y a)) as [Hin Hle]. split.
    + apply elem_of_cons in Hin as [Hin|Hin].
      * rewrite Hin. destruct (Z.min_spec y a) as [[_ ->]|[_ ->]].
        -- by left.
        -- right. by left.
      * right. by right.
    + intros z Hz.
      assert (foldl Z.min (Z.min y a) ys ≤ Z.min y a) as Hm
        by (apply Hle; by left).
      apply elem_of_cons in Hz as [->|Hz]; [lia|].
      apply elem_of_cons in Hz as [->|Hz]; [lia|].
      apply Hle. by right.
Qed.

Lemma foldl_max_spec (y : Z) (ys : list Z) :
  foldl Z.max y ys ∈ y :: ys ∧ ∀ z, z ∈ y :: ys → z ≤ foldl Z.max y ys.
Proof.
  revert y. induction ys as [|a ys IH]; intros y; simpl.
  - split; [by left|]. intros z Hz.
    apply list_elem_of_singleton in Hz. lia.
  - destruct (IH (Z.max y a)) as [Hin Hle]. split.
    + apply elem_of_cons in Hin as [Hin|Hin].
      * rewrite Hin. destruct (Z.max_spec y a) as [[_ ->]|[_ ->]].
        -- right. by left.
        -- by left.
      * right. by right.
    + intros z Hz.
      assert (Z.max y a ≤ foldl Z.max (Z.max y a) ys) as Hm
        by (apply Hle; by left).
      apply elem_of_cons in Hz as [->|Hz]; [lia|].
      apply elem_of_cons in Hz as [->|Hz]; [lia|].
      apply Hle. by right.
Qed.

Lemma years_range_empty : Library.years_range ∅ = None.
Proof. unfold Library.years_range. by rewrite elements_empty. Qed.

Lemma years_range_nonempty (Y : gset Z) :
  Y ≠ ∅ →
  ∃ lo hi, Library.years_range Y = Some (lo, hi) ∧
    lo ∈ Y ∧ hi ∈ Y ∧ ∀ y, y ∈ Y → lo ≤ y ≤ hi.
Proof.
  intros HY. unfold Library.years_range.
  destruct (elements Y) as [|y ys] eqn:HE.
  { apply elements_empty_inv in HE. exfalso. apply HY.
    by apply leibniz_equiv. }
  destruct (foldl_min_spec y ys) as [Hmin Hle].
  destruct (foldl_max_spec y ys) as [Hmax Hge].
  rewrite <- HE in Hmin, Hmax, Hle, Hge.
  exists (foldl Z.min y ys), (foldl Z.max y ys).
  repeat split.
  - by apply elem_of_elements.
  - by apply elem_of_elements.
  - apply Hle. by apply elem_of_elements.
  - apply Hge. by apply elem_of_elements.
Qed.

(** C7: for every library (reachable or not), [get_statistics] returns the
    number of books of the sequence, the number of distinct authors among
    them, [None] as the year range when there is no book and otherwise
    the pair of the least and the greatest year of a book, and the genres
    of the books, each listed once. *)
Theorem get_statistics_spec (s : Library.t) :
  let bks := BookCollection._books (Library.get_all_books s) in
  let st := Library.get_statistics s in
  Library.total_books st = length bks ∧
  Library.unique_authors st = length (remove_dups (author <$> bks)) ∧
  (bks = [] → Library.year_range st = None) ∧
  (bks ≠ [] →
   ∃ lo hi, Library.year_range st = Some (lo, hi) ∧
     lo ∈ year <$> bks ∧ hi ∈ year <$> bks ∧
     ∀ b, b ∈ bks → lo ≤ year b ≤ hi) ∧
  NoDup (Library.genres st) ∧
  (∀ g, g ∈ Library.genres st ↔ g ∈ genre <$> bks).
Proof.
  intros bks st. subst st. unfold Library.get_statistics.
  unfold BookCollection.__iter__, BookCollection.__len__.
  unfold Library.get_all_books in bks. fold bks.
  rewrite collect_spec. simpl.
  split; [done|]. split; [apply size_distinct|].
  split; [|split; [|split]].
  - intros ->. simpl. apply years_range_empty.
  - intros Hne.
    destruct (years_range_nonempty (list_to_set (year <$> bks)))
      as (lo & hi & Hr & Hlo & Hhi & Hall).
    { destruct bks as [|b l]; [done|]. simpl. set_solver. }
    exists lo, hi. rewrite elem_of_list_to_set in Hlo, Hhi.
    repeat split; try done.
    all: apply Hall, elem_of_list_to_set, list_elem_of_fmap; eauto.
  - apply NoDup_elements.
  - intros g. by rewrite elem_of_elements, elem_of_list_to_set.
Qed.

(** The example of the specification: two books by one author. *)
Example get_statistics_example :
  let st := Library.get_statistics (add_all lib0 [bookA1; bookA2]) in
  Library.total_books st = 2%nat ∧ Library.unique_authors st = 1%nat ∧
  Library.year_range st = Some (2000, 2001) ∧
  Library.genres st ≡ₚ ["Fiction"; "Drama"]%string.
Proof. vm_compute. repeat split; reflexivity. Qed.

Example get_statistics_empty :
  Library.year_range (Library.get_statistics lib0) = None.
Proof. reflexivity. Qed.

(** ** Indexed and sliced reads *)

Section slices.
Context {A : Type}.
Implicit Types (l : list A) (cur step : Z) (count : nat).

Lemma item_at_Some l cur x :
  item_at l cur = Some x → 0 ≤ cur ∧ l !! Z.to_nat cur = Some x.
Proof. unfold item_at. by case_decide. Qed.

Lemma item_at_reverse l cur :
  item_at l cur = item_at (reverse l) (Z.of_nat (length l) - 1 - cur).
Proof.
  unfold item_at.
  destruct (decide (0 ≤ cur)) as [H0|H0];
    destruct (decide (0 ≤ Z.of_nat (length l) - 1 - cur)) as [H1|H1].
  - rewrite reverse_lookup by lia. f_equal. lia.
  - apply lookup_ge_None. lia.
  - symmetry. apply lookup_ge_None. rewrite length_reverse. lia.
  - done.
Qed.

Lemma drop_sublist_le l (i j : nat) :
  (i ≤ j)%nat → sublist (drop j l) (drop i l).
Proof.
  intros Hij. replace j with (i + (j - i))%nat by lia.
  rewrite <- drop_drop. apply sublist_drop.
Qed.

(** A slice read with a positive step walks the list forwards. *)
Lemma slice_items_forward l cur step count :
  0 < step → 0 ≤ cur →
  sublist (slice_items l cur step count) (drop (Z.to_nat cur) l).
Proof.
  intros Hstep. revert cur.
  induction count as [|c IH]; intros cur Hcur; simpl.
  - apply sublist_nil_l.
  - specialize (IH (cur + step) ltac:(lia)).
    destruct (item_at l cur) as [x|] eqn:Hx.
    + apply item_at_Some in Hx as [_ Hx].
      rewrite (drop_S l x (Z.to_nat cur) Hx).
      apply sublist_skip. etrans; [exact IH|].
      apply drop_sublist_le. lia.
    + etrans; [exact IH|]. apply drop_sublist_le. lia.
Qed.

(** With a negative step it walks the reversed list forwards. *)
Lemma slice_items_reverse l cur step count :
  slice_items l cur step count =
    slice_items (reverse l) (Z.of_nat (length l) - 1 - cur) (- step) count.
Proof.
  revert cur. induction count as [|c IH]; intros cur; simpl; [done|].
  rewrite <- item_at_reverse, IH.
  by replace (Z.of_nat (length l) - 1 - (cur + step))
    with (Z.of_nat (length l) - 1 - cur + - step) by lia.
Qed.

(** With step one it copies a contiguous range. *)
Lemma slice_items_contiguous l cur count :
  0 ≤ cur → (Z.to_nat cur + count ≤ length l)%nat →
  slice_items l cur 1 count = take count (drop (Z.to_nat cur) l).
Proof.
  revert cur. induction count as [|c IH]; intros cur Hcur Hlen; simpl.
  - by rewrite take_0.
  - destruct (lookup_lt_is_Some_2 l (Z.to_nat cur) ltac:(lia)) as [x Hx].
    unfold item_at. rewrite decide_True by done. rewrite Hx.
    rewrite (drop_S l x (Z.to_nat cur) Hx). simpl. f_equal.
    rewrite IH by lia. do 2 f_equal. lia.
Qed.

Lemma slice_adjust_forward (n : Z) (start stop : option Z) step :
  0 ≤ n → 0 < step →
  0 ≤ (slice_adjust n start stop step).1 ≤ n ∧
  0 ≤ (slice_adjust n start stop step).2 ≤ n.
Proof.
  intros Hn Hs. unfold slice_adjust. simpl.
  rewrite !(decide_False (P := step < 0)) by lia.
  destruct start as [a|], stop as [b|]; repeat case_decide; lia.
Qed.

Lemma slice_adjust_backward (n : Z) (start stop : option Z) step :
  0 ≤ n → step < 0 →
  (slice_adjust n start stop step).1 ≤ n - 1.
Proof.
  intros Hn Hs. unfold slice_adjust. simpl.
  rewrite !(decide_True (P := step < 0)) by lia.
  destruct start as [a|]; repeat case_decide; lia.
Qed.

Lemma list_slice_ordered l (start stop step : option Z) :
  default 1 step ≠ 0 →
  ∃ r, list_slice l start stop step = Some r ∧
    (0 < default 1 step → sublist r l) ∧
    (default 1 step < 0 → sublist r (reverse l)).
Proof.
  intros Hst. unfold list_slice. cbv zeta.
  rewrite decide_False by done.
  destruct (slice_adjust (Z.of_nat (length l)) start stop (default 1 step))
    as [a b] eqn:Hab.
  eexists. split; [reflexivity|]. split; intros Hsign.
  - pose proof (slice_adjust_forward (Z.of_nat (length l)) start stop
                  (default 1 step) ltac:(lia) Hsign) as [Ha _].
    rewrite Hab in Ha. simpl in Ha.
    etrans; [apply slice_items_forward; lia|]. apply sublist_drop.
  - pose proof (slice_adjust_backward (Z.of_nat (length l)) start stop
                  (default 1 step) ltac:(lia) Hsign) as Ha.
    rewrite Hab in Ha. simpl in Ha.
    rewrite slice_items_reverse.
    etrans; [apply slice_items_forward; lia|]. apply sublist_drop.
Qed.
End slices.

Lemma list_slice_plain {A} (l : list A) (start stop : option Z) :
  let lo := clamped_bound (length l) start 0 in
  let hi := clamped_bound (length l) stop (length l) in
  list_slice l start stop None = Some (take (hi - lo) (drop lo l)).
Proof.
  intros lo hi. unfold list_slice. cbv zeta. simpl default.
  rewrite decide_False by done.
  destruct (slice_adjust (Z.of_nat (length l)) start stop 1) as [a b] eqn:Hab.
  assert (a = Z.of_nat lo ∧ b = Z.of_nat hi) as [-> ->].
  { unfold slice_adjust in Hab. simpl in Hab.
    injection Hab as <- <-. subst lo hi. unfold clamped_bound.
    destruct start as [x|], stop as [y|]; repeat case_decide; lia. }
  assert ((lo ≤ length l)%nat ∧ (hi ≤ length l)%nat) as [Hlo Hhi].
  { subst lo hi. unfold clamped_bound.
    destruct start as [x|], stop as [y|]; repeat case_decide; lia. }
  f_equal. unfold slice_length. rewrite decide_False by lia.
  case_decide as Hlt.
  - rewrite Z.div_1_r. rewrite slice_items_contiguous by lia.
    rewrite Nat2Z.id. f_equal. lia.
  - simpl. replace (hi - lo)%nat with 0%nat by lia. by rewrite take_0.
Qed.

(** No position that a slice read visits is out of range: the result has
    one item per visited position. *)
Lemma slice_items_lookup {A} (l : list A) (cur step : Z) (count : nat) :
  (∀ i : nat, (i < count)%nat →
     0 ≤ cur + Z.of_nat i * step < Z.of_nat (length l)) →
  length (slice_items l cur step count) = count ∧
  ∀ i : nat, (i < count)%nat →
    slice_items l cur step count !! i
    = l !! Z.to_nat (cur + Z.of_nat i * step).
Proof.
  revert cur. induction count as [|c IH]; intros cur Hin; simpl.
  - split; [done|]. intros i Hi. lia.
  - pose proof (Hin 0%nat ltac:(lia)) as H0.
    destruct (lookup_lt_is_Some_2 l (Z.to_nat cur) ltac:(lia)) as [x Hx].
    unfold item_at. rewrite decide_True by lia. rewrite Hx.
    destruct (IH (cur + step)) as [Hlen Hlk].
    { intros i Hi. specialize (Hin (S i) ltac:(lia)). lia. }
    split; [simpl; by rewrite Hlen|].
    intros [|i] Hi; simpl.
    + rewrite <- Hx. f_equal. lia.
    + rewrite Hlk by lia. do 2 f_equal. lia.
Qed.

Lemma slice_visits_in_range (n : Z) (start stop : option Z) (step : Z) :
  0 ≤ n → step ≠ 0 →
  let '(a, b) := slice_adjust n start stop step in
  ∀ i : nat, (i < slice_length a b step)%nat →
    0 ≤ a + Z.of_nat i * step < n.
Proof.
  intros Hn Hstep.
  destruct (slice_adjust n start stop step) as [a b] eqn:Hab.
  intros i Hi. unfold slice_length in Hi.
  destruct (decide (step < 0)) as [Hneg|Hpos].
  - pose proof (slice_adjust_backward n start stop step Hn Hneg) as Ha.
    rewrite Hab in Ha. simpl in Ha.
    assert (-1 ≤ b) as Hb.
    { unfold slice_adjust in Hab. injection Hab as _ <-.
      rewrite !(decide_True (P := step < 0)) by lia.
      destruct stop as [y|]; repeat case_decide; lia. }
    case_decide as Hlt; [|lia].
    pose proof (Z.mul_div_le (a - b - 1) (- step) ltac:(lia)) as Hd.
    assert (Z.of_nat i ≤ (a - b - 1) `div` (- step)) as Hq by lia.
    nia.
  - pose proof (slice_adjust_forward n start stop step Hn ltac:(lia))
      as [Ha Hb].
    rewrite Hab in Ha, Hb. simpl in Ha, Hb.
    case_decide as Hlt; [|lia].
    pose proof (Z.mul_div_le (b - a - 1) step ltac:(lia)) as Hd.
    assert (Z.of_nat i ≤ (b - a - 1) `div` step) as Hq by lia.
    nia.
Qed.

Lemma list_slice_items {A} (l : list A) (start stop step : option Z) :
  default 1 step ≠ 0 →
  let st := default 1 step in
  let '(a, b) := slice_adjust (Z.of_nat (length l)) start stop st in
  ∃ r, list_slice l start stop step = Some r ∧
    length r = slice_length a b st ∧
    ∀ i : nat, (i < length r)%nat →
      r !! i = l !! Z.to_nat (a + Z.of_nat i * st).
Proof.
  intros Hst st.
  pose proof (slice_visits_in_range (Z.of_nat (length l)) start stop st
                ltac:(lia) Hst) as Hin.
  unfold list_slice. cbv zeta. fold st. rewrite decide_False by done.
  destruct (slice_adjust (Z.of_nat (length l)) start stop st) as [a b].
  destruct (slice_items_lookup l a st (slice_length a b st) Hin)
    as [Hlen Hlk].
  eexists. split; [reflexivity|]. split; [done|].
  intros i Hi. apply Hlk. by rewrite Hlen in Hi.
Qed.


Lemma list_index_out_of_range {A} (l : list A) (i : Z) :
  ¬ (- Z.of_nat (length l) ≤ i < Z.of_nat (length l)) →
  list_index l i = None.
Proof.
  intros Hi. unfold list_index. cbv zeta.
  destruct (decide (i < 0)); by rewrite decide_False by lia.
Qed.




Lemma get_statistics_spec_witness :
  ∃ lo hi,
    Library.year_range (Library.get_statistics (add_all lib0 [bookA1; bookA2]))
    = Some (lo, hi) ∧
    lo ∈ [2000; 2001] ∧ hi ∈ [2000; 2001] ∧
    ∀ b, b ∈ [bookA1; bookA2] → lo ≤ year b ≤ hi.
Proof.
  pose proof (get_statistics_spec (add_all lib0 [bookA1; bookA2]))
    as (_ & _ & _ & Hrange & _).
  apply Hrange. discriminate.
Defined.

(** ** Removal from a list *)

(** What the search-and-pop of [BookCollection.remove] and of
    [list.remove] does to a list: it splits it around the first item that
    satisfies the test. *)
Lemma list_find_split {A} (P : A → Prop) `{∀ x, Decision (P x)}
    (l : list A) (i : nat) (x : A) :
  list_find P l = Some (i, x) →
  ∃ l1 l2, l = l1 ++ x :: l2 ∧ delete i l = l1 ++ l2 ∧ P x ∧
    ∀ y, y ∈ l1 → ¬ P y.
Proof.
  intros (Hi & HP & Hbefore)%list_find_Some.
  exists (take i l), (drop (S i) l). repeat split.
  - by rewrite take_drop_middle.
  - apply delete_take_drop.
  - done.
  - intros y [j Hj]%list_elem_of_lookup_1.
    apply lookup_take_Some in Hj as [Hj Hlt].
    by apply (Hbefore j).
Qed.

Lemma list_find_absent {A} (P : A → Prop) `{∀ x, Decision (P x)}
    (l : list A) :
  list_find P l = None ↔ ∀ y, y ∈ l → ¬ P y.
Proof. rewrite list_find_None, Forall_forall. done. Qed.

(** The collection after [remove]. *)
Lemma collection_remove_found (k : string) (c : BookCollection.t) :
  (∃ b, b ∈ BookCollection._books c ∧ isbn b = k) →
  ∃ l1 x l2, BookCollection._books c = l1 ++ x :: l2 ∧ isbn x = k ∧
    (∀ y, y ∈ l1 → isbn y ≠ k) ∧
    BookCollection.remove k c = (inr true, BookCollection.mk (l1 ++ l2)).
Proof.
  intros (b & Hb & Hk).
  cbv [BookCollection.remove mbind M_bind get put mret M_ret list_pop].
  destruct (list_find (λ book, isbn book = k) (BookCollection._books c))
    as [[i x]|] eqn:Hfind.
  - apply list_find_split in Hfind as (l1 & l2 & Hl & Hdel & Hx & Hl1).
    exists l1, x, l2. by rewrite Hdel.
  - exfalso. by apply (proj1 (list_find_absent _ _) Hfind b).
Qed.

(** The isbn index after [IndexDict.remove_book]. *)
Lemma index_remove_by_isbn (book : Book) (d : IndexDict.t) :
  IndexDict._by_isbn (IndexDict.remove_book book d).2
  = delete (isbn book) (IndexDict._by_isbn d).
Proof.
  cbv [IndexDict.remove_book mbind M_bind get put mret M_ret]. simpl.
  case_bool_decide as Hk; [done|].
  symmetry. apply delete_id. by apply eq_None_not_Some.
Qed.

(** ** The sequence and the isbn index *)

Lemma consistent_init (nm : string) : consistent (Library.__init__ nm).
Proof.
  unfold consistent. simpl. split; [|split].
  - constructor.
  - apply dom_empty_L.
  - intros k b Hk. by rewrite lookup_empty in Hk.
Qed.

Lemma consistent_len (s : Library.t) :
  consistent s →
  BookCollection.__len__ (Library.get_all_books s)
  = IndexDict.__len__ (Library.indexes s).
Proof.
  intros (Hnd & Hdom & _).
  unfold BookCollection.__len__, IndexDict.__len__, Library.get_all_books.
  rewrite <- size_dom, Hdom, size_list_to_set by done.
  by rewrite length_fmap.
Qed.

Lemma consistent_add_fresh (s : Library.t) (b : Book) :
  consistent s →
  IndexDict.__contains__ (Library.indexes s) (isbn b) = false →
  consistent (step s (AddBook (VBook b))).
Proof.
  intros (Hnd & Hdom & Hkey) Hfresh.
  unfold step. rewrite add_book_Book. unfold consistent. simpl.
  apply bool_decide_eq_false in Hfresh.
  assert (isbn b ∉ isbn <$> BookCollection._books (Library.books s)) as Hnew.
  { intros Hin. apply Hfresh, elem_of_dom. rewrite Hdom.
    by apply elem_of_list_to_set. }
  split; [|split].
  - rewrite fmap_app. apply NoDup_app. repeat split; [done| |].
    + intros x Hx ->%list_elem_of_singleton. done.
    + simpl. apply NoDup_singleton.
  - rewrite dom_insert_L, Hdom, fmap_app, list_to_set_app_L. simpl.
    rewrite (right_id_L ∅ (∪)). apply (comm_L (∪)).
  - intros k x Hk. destruct (decide (isbn b = k)) as [<-|Hne].
    + rewrite lookup_insert_eq in Hk. by injection Hk as <-.
    + rewrite lookup_insert_ne in Hk by done. by apply Hkey.
Qed.

Lemma consistent_add_rejected (s : Library.t) (x : pyval) :
  isinstance_Book x = false → step s (AddBook x) = s.
Proof. intros Hx. unfold step. by rewrite add_book_not_Book. Qed.

Lemma consistent_remove (s : Library.t) (k : string) :
  consistent s → consistent (step s (RemoveBook k)).
Proof.
  intros (Hnd & Hdom & Hkey). unfold step.
  destruct (IndexDict._by_isbn (Library.indexes s) !! k) as [book|] eqn:Hk.
  2: { by rewrite remove_book_absent. }
  rewrite (remove_book_present k book) by done.
  pose proof (Hkey k book Hk) as Hisbn.
  destruct (collection_remove_found k (Library.books s))
    as (l1 & x & l2 & Hl & Hx & Hl1 & ->).
  { assert (k ∈ isbn <$> BookCollection._books (Library.books s)) as Hin.
    { apply (elem_of_list_to_set (C := gset string)). rewrite <- Hdom.
      apply elem_of_dom. eauto. }
    apply list_elem_of_fmap in Hin as (b & -> & Hb). eauto. }
  unfold consistent.
  cbn [snd Library.books Library.indexes BookCollection._books].
  rewrite index_remove_by_isbn, Hisbn.
  rewrite Hl in Hnd, Hdom.
  rewrite fmap_app, fmap_cons in Hnd, Hdom.
  apply NoDup_app in Hnd as (Hnd1 & Hdisj & Hnd2).
  apply NoDup_cons in Hnd2 as [Hx2 Hnd2]. rewrite Hx in Hx2, Hdisj, Hdom.
  assert (k ∉ isbn <$> l1) as Hx1.
  { intros Hin. apply (Hdisj k Hin). by left. }
  split; [|split].
  - rewrite fmap_app. apply NoDup_app. repeat split; [done| |done].
    intros y Hy1 Hy2. apply (Hdisj y Hy1). by right.
  - rewrite dom_delete_L, Hdom, fmap_app.
    rewrite !list_to_set_app_L, list_to_set_cons.
    apply set_eq. intros y.
    rewrite elem_of_difference, !elem_of_union, !elem_of_list_to_set,
      !elem_of_singleton.
    split.
    + intros [[?|[?|?]] ?]; tauto.
    + intros [?|?]; (split; [tauto|intros ->; tauto]).
  - intros k' b Hb. destruct (decide (k = k')) as [<-|Hne].
    + by rewrite lookup_delete_eq in Hb.
    + rewrite lookup_delete_ne in Hb by done. by apply Hkey.
Qed.

Lemma consistent_run (ops : list op) (s : Library.t) :
  consistent s → fresh_adds s ops = true → consistent (run s ops).
Proof.
  revert s. induction ops as [|o ops IH]; intros s Hs Hfresh; [done|].
  simpl in Hfresh. apply andb_true_iff in Hfresh as [Ho Hrest].
  simpl. apply IH; [|done].
  destruct o as [x|k].
  - destruct x as [b| | | |];
      try (by rewrite consistent_add_rejected).
    apply consistent_add_fresh; [done|]. by apply negb_true_iff.
  - by apply consistent_remove.
Qed.

Lemma fresh_adds_prefix (ops1 ops2 : list op) (s : Library.t) :
  fresh_adds s (ops1 ++ ops2) = true → fresh_adds s ops1 = true.
Proof.
  revert s. induction ops1 as [|o ops1 IH]; intros s; simpl; [done|].
  intros [Ho Hrest]%andb_true_iff. rewrite Ho. simpl. by apply IH.
Qed.

(** C1, as stated, fails: two books with one isbn make the sequence longer
    than the isbn index. *)
Lemma len_diverges_on_duplicate_isbn :
  let s := run lib0 [AddBook (VBook bookA1); AddBook (VBook bookA1')] in
  BookCollection.__len__ (Library.get_all_books s) = 2%nat ∧
  IndexDict.__len__ (Library.indexes s) = 1%nat ∧
  BookCollection.__len__ (Library.get_all_books s)
  ≠ IndexDict.__len__ (Library.indexes s).
Proof. vm_compute. repeat split. discriminate. Qed.

(** C1 (amended): for every sequence of [add_book] and [remove_book]
    calls on an empty library in which no [add_book] is given a book whose
    isbn is a key of the isbn index at that moment, after every call the
    length of [get_all()] equals the length of the index. *)
Theorem len_books_eq_len_indexes (nm : string) (ops done_ops rest : list op) :
  fresh_adds (Library.__init__ nm) ops = true →
  ops = done_ops ++ rest →
  let s := run (Library.__init__ nm) done_ops in
  BookCollection.__len__ (Library.get_all_books s)
  = IndexDict.__len__ (Library.indexes s).
Proof.
  intros Hfresh -> s. apply consistent_len, consistent_run.
  - apply consistent_init.
  - by apply fresh_adds_prefix in Hfresh.
Qed.

Lemma len_books_eq_len_indexes_witness :
  BookCollection.__len__ (Library.get_all_books
    (run lib0 [AddBook (VBook bookA1); AddBook (VInt 7);
               AddBook (VBook bookA2); RemoveBook "A1"]))
  = IndexDict.__len__ (Library.indexes
    (run lib0 [AddBook (VBook bookA1); AddBook (VInt 7);
               AddBook (VBook bookA2); RemoveBook "A1"])).
Proof.
  apply (len_books_eq_len_indexes "Main Library"
           [AddBook (VBook bookA1); AddBook (VInt 7);
            AddBook (VBook bookA2); RemoveBook "A1"; AddBook (VBook bookA1')]
           [AddBook (VBook bookA1); AddBook (VInt 7);
            AddBook (VBook bookA2); RemoveBook "A1"]
           [AddBook (VBook bookA1')]).
  - vm_compute. reflexivity.
  - reflexivity.
Defined.

(** ** Adding and then removing a book *)

Lemma add_all_cons (s : Library.t) (b : Book) (bs : list Book) :
  add_all s (b :: bs) = add_all (Library.add_book (VBook b) s).2 bs.
Proof. reflexivity. Qed.

Lemma add_all_books (bs : list Book) (s : Library.t) :
  BookCollection._books (Library.books (add_all s bs))
  = BookCollection._books (Library.books s) ++ bs.
Proof.
  revert s. induction bs as [|b bs IH]; intros s.
  - by rewrite app_nil_r.
  - rewrite add_all_cons, IH, add_book_Book. simpl.
    by rewrite <- app_assoc.
Qed.

(** Once the isbn index maps [k] to a book with isbn [k], it keeps doing
    so through further adds, whatever their isbns. *)
Lemma add_all_lookup (bs : list Book) (s : Library.t) (k : string) :
  (∃ b, IndexDict._by_isbn (Library.indexes s) !! k = Some b ∧ isbn b = k) →
  ∃ b, IndexDict._by_isbn (Library.indexes (add_all s bs)) !! k = Some b ∧
       isbn b = k.
Proof.
  revert s. induction bs as [|x bs IH]; intros s Hs; [done|].
  rewrite add_all_cons. apply IH. rewrite add_book_Book. simpl.
  destruct (decide (isbn x = k)) as [Hx|Hx].
  - exists x. by rewrite <- Hx, lookup_insert_eq.
  - by rewrite lookup_insert_ne.
Qed.

(** The split of a list around its first item that satisfies a test is
    unique. *)
Lemma first_match_unique {A} (P : A → Prop) (a1 b1 : list A) (x y : A)
    (a2 b2 : list A) :
  a1 ++ x :: a2 = b1 ++ y :: b2 →
  P x → P y → (∀ z, z ∈ a1 → ¬ P z) → (∀ z, z ∈ b1 → ¬ P z) →
  a1 = b1 ∧ x = y ∧ a2 = b2.
Proof.
  revert b1. induction a1 as [|a a1 IH]; intros [|b b1] Heq Hx Hy Ha Hb;
    simpl in Heq.
  - by injection Heq as -> ->.
  - injection Heq as -> _. exfalso. apply (Hb b); [by left|done].
  - injection Heq as -> _. exfalso. apply (Ha y); [by left|done].
  - injection Heq as -> Heq.
    destruct (IH b1 Heq Hx Hy) as (-> & -> & ->).
    + intros z Hz. apply Ha. by right.
    + intros z Hz. apply Hb. by right.
    + done.
Qed.

Lemma list_contains_false (l : list Book) (r : Book) :
  (∀ b, b ∈ l → isbn b ≠ isbn r) → list_contains l (VBook r) = false.
Proof.
  intros Hl. unfold list_contains. apply not_true_is_false.
  intros (b & Hb & Heq)%existsb_exists.
  apply list_elem_of_In in Hb. simpl in Heq.
  apply bool_decide_eq_true in Heq. by apply (Hl b).
Qed.

(** C3, as stated, fails: when a second book with the isbn of [r] is
    added in between, [remove_book] pops only the first of them and
    [get_all()] still contains a book equal to [r]. *)
Lemma removed_book_still_contained :
  let s := (Library.remove_book (isbn bookA1)
              (add_all lib0 [bookA1; bookA1'])).2 in
  Library.search_by_isbn s (isbn bookA1) = None ∧
  BookCollection._books (Library.get_all_books s) = [bookA1'] ∧
  BookCollection.__contains__ (Library.get_all_books s) (VBook bookA1) = true.
Proof. vm_compute. repeat split. Qed.

(** C3 (amended): for every library, every book [r] and every list of
    books added after it, [remove_book] of the isbn of [r] returns [True],
    afterwards the search for that isbn returns [None] and the sequence has
    lost the first book with that isbn; when no other book of the
    sequence, old or added in between, has the isbn of [r], the sequence is
    the old books followed by the ones added in between, and contains no
    book equal to [r]. *)
Theorem add_then_remove (s : Library.t) (r : Book) (bs : list Book) :
  let s1 := add_all s (r :: bs) in
  let res := Library.remove_book (isbn r) s1 in
  res.1 = inr true ∧
  Library.search_by_isbn res.2 (isbn r) = None ∧
  (∃ l1 x l2,
     BookCollection._books (Library.get_all_books s1) = l1 ++ x :: l2 ∧
     isbn x = isbn r ∧ (∀ y, y ∈ l1 → isbn y ≠ isbn r) ∧
     BookCollection._books (Library.get_all_books res.2) = l1 ++ l2) ∧
  ((∀ b, b ∈ BookCollection._books (Library.get_all_books s) ++ bs →
         isbn b ≠ isbn r) →
   BookCollection._books (Library.get_all_books res.2)
   = BookCollection._books (Library.get_all_books s) ++ bs ∧
   BookCollection.__contains__ (Library.get_all_books res.2) (VBook r) = false).
Proof.
  intros s1 res.
  destruct (add_all_lookup bs (Library.add_book (VBook r) s).2 (isbn r))
    as (book & Hbook & Hisbn).
  { exists r. rewrite add_book_Book. simpl. by rewrite lookup_insert_eq. }
  rewrite <- add_all_cons in Hbook. fold s1 in Hbook.
  assert (BookCollection._books (Library.books s1)
          = BookCollection._books (Library.books s) ++ r :: bs) as Hseq.
  { subst s1. by rewrite add_all_books. }
  destruct (collection_remove_found (isbn r) (Library.books s1))
    as (l1 & x & l2 & Hl & Hx & Hl1 & Hrem).
  { exists r. split; [|done]. rewrite Hseq. set_solver. }
  subst res. rewrite (remove_book_present (isbn r) book) by done.
  rewrite Hrem. unfold Library.get_all_books.
  cbn [fst snd Library.books Library.indexes BookCollection._books].
  split; [done|]. split; [|split].
  - unfold Library.search_by_isbn, IndexDict.get_by_isbn.
    cbn [Library.indexes].
    rewrite index_remove_by_isbn, Hisbn. apply lookup_delete_eq.
  - by exists l1, x, l2.
  - intros Huniq.
    destruct (first_match_unique (λ b, isbn b = isbn r)
                l1 (BookCollection._books (Library.books s)) x r l2 bs)
      as (-> & _ & ->); try done.
    { by rewrite <- Hl, Hseq. }
    { intros y Hy. apply Huniq. set_solver. }
    split; [done|]. unfold BookCollection.__contains__. simpl.
    by apply list_contains_false.
Qed.

Lemma add_then_remove_witness :
  BookCollection._books (Library.get_all_books
    (Library.remove_book (isbn bookA1)
       (add_all lib0 [bookA1; bookA2])).2) = [bookA2] ∧
  BookCollection.__contains__ (Library.get_all_books
    (Library.remove_book (isbn bookA1)
       (add_all lib0 [bookA1; bookA2])).2) (VBook bookA1) = false.
Proof.
  pose proof (add_then_remove lib0 bookA1 [bookA2]) as (_ & _ & _ & Huniq).
  apply Huniq. intros b Hb. simpl in Hb.
  apply list_elem_of_singleton in Hb as ->. discriminate.
Defined.

(** * Further properties of the collection *)

Lemma contains_str_iff (c : BookCollection.t) (k : string) :
  BookCollection.__contains__ c (VStr k) = true ↔
  ∃ b, b ∈ BookCollection._books c ∧ isbn b = k.
Proof.
  unfold BookCollection.__contains__. simpl.
  rewrite existsb_exists. split.
  - intros (b & Hb & Hk). exists b. split; [by apply list_elem_of_In|].
    by apply bool_decide_eq_true in Hk.
  - intros (b & Hb & Hk). exists b. split; [by apply list_elem_of_In|].
    by apply bool_decide_eq_true.
Qed.

Lemma contains_str_false (c : BookCollection.t) (k : string) :
  BookCollection.__contains__ c (VStr k) = false ↔
  ∀ b, b ∈ BookCollection._books c → isbn b ≠ k.
Proof.
  rewrite <- not_true_iff_false, contains_str_iff. split.
  - intros Hno b Hb Hk. apply Hno. eauto.
  - intros Hall (b & Hb & Hk). by apply (Hall b).
Qed.

Lemma collection_remove_missing (k : string) (c : BookCollection.t) :
  (∀ b, b ∈ BookCollection._books c → isbn b ≠ k) →
  BookCollection.remove k c = (inr false, c).
Proof.
  intros Hno.
  cbv [BookCollection.remove mbind M_bind get put mret M_ret].
  by rewrite (proj2 (list_find_absent (λ book, isbn book = k) _) Hno).
Qed.

(** A book test and an isbn test of membership agree. *)
Lemma contains_book_is_contains_isbn (c : BookCollection.t) (b : Book) :
  BookCollection.__contains__ c (VBook b)
  = BookCollection.__contains__ c (VStr (isbn b)).
Proof.
  reflexivity.
Qed.

(** X2: [add] of a book returns, makes the collection one longer, leaves
    the books before it at their positions, and the new book is the last
    one ([c[-1]]) and a member. *)
Theorem collection_add_book (c : BookCollection.t) (b : Book) :
  let r := BookCollection.add (VBook b) c in
  r.1 = inr () ∧
  BookCollection.__len__ r.2 = S (BookCollection.__len__ c) ∧
  BookCollection._books r.2 = BookCollection._books c ++ [b] ∧
  BookCollection.__getitem__ r.2 (BookCollection.KInt (-1))
  = inr (BookCollection.One b) ∧
  BookCollection.__contains__ r.2 (VBook b) = true.
Proof.
  simpl. unfold BookCollection.__len__. simpl.
  split; [done|]. split; [rewrite length_app; simpl; lia|].
  split; [done|]. split.
  - unfold BookCollection.__getitem__, list_index, item_at. simpl.
    rewrite length_app. simpl.
    repeat case_decide; try lia.
    rewrite list_lookup_middle; [done|lia].
  - rewrite contains_book_is_contains_isbn. apply contains_str_iff.
    exists b. split; [|done]. simpl. set_solver.
Qed.

(** X3: [remove] never raises; it returns [True] exactly when the isbn is
    a member of the collection, and when it returns [False] the collection
    is unchanged. *)
Theorem collection_remove_result (c : BookCollection.t) (k : string) :
  (BookCollection.remove k c).1
  = inr (BookCollection.__contains__ c (VStr k)) ∧
  (BookCollection.__contains__ c (VStr k) = false →
   (BookCollection.remove k c).2 = c).
Proof.
  destruct (BookCollection.__contains__ c (VStr k)) eqn:Hc.
  - apply contains_str_iff in Hc.
    destruct (collection_remove_found k c Hc) as (? & ? & ? & _ & _ & _ & ->).
    done.
  - pose proof (proj1 (contains_str_false c k) Hc) as Hno.
    by rewrite collection_remove_missing.
Qed.

Lemma collection_remove_result_witness :
  (BookCollection.remove "A9" (BookCollection.mk [bookA1; bookA2])).2
  = BookCollection.mk [bookA1; bookA2].
Proof.
  apply (collection_remove_result (BookCollection.mk [bookA1; bookA2]) "A9").
  reflexivity.
Defined.

(** X4: when the isbn is a member, [remove] drops the first book with that
    isbn and nothing else: the books before and after it keep their order,
    and the collection is one shorter. *)
Theorem collection_remove_first (c : BookCollection.t) (k : string) :
  BookCollection.__contains__ c (VStr k) = true →
  ∃ l1 x l2,
    BookCollection._books c = l1 ++ x :: l2 ∧ isbn x = k ∧
    (∀ y, y ∈ l1 → isbn y ≠ k) ∧
    BookCollection._books (BookCollection.remove k c).2 = l1 ++ l2 ∧
    S (BookCollection.__len__ (BookCollection.remove k c).2)
    = BookCollection.__len__ c.
Proof.
  intros Hc%contains_str_iff.
  destruct (collection_remove_found k c Hc) as (l1 & x & l2 & Hl & Hx & Hl1 & ->).
  exists l1, x, l2. unfold BookCollection.__len__. rewrite Hl. simpl.
  repeat split; try done. rewrite !length_app. simpl. lia.
Qed.

Lemma collection_remove_first_witness :
  ∃ l1 x l2,
    [bookA1; bookA2; bookA1'] = l1 ++ x :: l2 ∧ isbn x = "A1"%string ∧
    (∀ y, y ∈ l1 → isbn y ≠ "A1"%string) ∧
    BookCollection._books
      (BookCollection.remove "A1"
         (BookCollection.mk [bookA1; bookA2; bookA1'])).2 = l1 ++ l2 ∧
    S (BookCollection.__len__
         (BookCollection.remove "A1"
            (BookCollection.mk [bookA1; bookA2; bookA1'])).2) = 3%nat.
Proof.
  apply (collection_remove_first
           (BookCollection.mk [bookA1; bookA2; bookA1']) "A1").
  reflexivity.
Defined.

(** X1: the membership test of a book or of an isbn string answers
    [True] exactly when some book of the collection has that isbn; the
    other fields of a tested book play no part. *)
Theorem contains_spec (c : BookCollection.t) (b : Book) (k : string) :
  (BookCollection.__contains__ c (VStr k) = true ↔
   ∃ x, x ∈ BookCollection._books c ∧ isbn x = k) ∧
  (BookCollection.__contains__ c (VBook b) = true ↔
   ∃ x, x ∈ BookCollection._books c ∧ isbn x = isbn b).
Proof.
  split; [apply contains_str_iff|].
  rewrite contains_book_is_contains_isbn. apply contains_str_iff.
Qed.

(** X5: for an index in [0, len), [remove_at_index] returns the book that
    [c[index]] reads, drops exactly that position, and makes the
    collection one shorter. *)
Theorem remove_at_index_in_range (c : BookCollection.t) (i : Z) :
  0 ≤ i < Z.of_nat (BookCollection.__len__ c) →
  ∃ b,
    BookCollection.__getitem__ c (BookCollection.KInt i)
    = inr (BookCollection.One b) ∧
    BookCollection.remove_at_index i c
    = (inr (Some b),
       BookCollection.mk
         (take (Z.to_nat i) (BookCollection._books c)
          ++ drop (S (Z.to_nat i)) (BookCollection._books c))) ∧
    S (BookCollection.__len__ (BookCollection.remove_at_index i c).2)
    = BookCollection.__len__ c.
Proof.
  unfold BookCollection.__len__. intros Hi.
  destruct (lookup_lt_is_Some_2 (BookCollection._books c) (Z.to_nat i)
              ltac:(lia)) as [b Hb].
  exists b. split; [|split].
  - unfold BookCollection.__getitem__, list_index, item_at. cbv zeta.
    repeat case_decide; try lia. by rewrite Hb.
  - cbv [BookCollection.remove_at_index mbind M_bind get put mret M_ret
         list_pop].
    rewrite decide_True by done. by rewrite Hb, delete_take_drop.
  - cbv [BookCollection.remove_at_index mbind M_bind get put mret M_ret
         list_pop].
    rewrite decide_True by done. simpl.
    rewrite length_delete by eauto. lia.
Qed.

Lemma remove_at_index_in_range_witness :
  ∃ b,
    BookCollection.__getitem__ (BookCollection.mk [bookA1; bookA2])
      (BookCollection.KInt 1) = inr (BookCollection.One b) ∧
    BookCollection.remove_at_index 1 (BookCollection.mk [bookA1; bookA2])
    = (inr (Some b), BookCollection.mk [bookA1]) ∧
    S (BookCollection.__len__
         (BookCollection.remove_at_index 1
            (BookCollection.mk [bookA1; bookA2])).2) = 2%nat.
Proof.
  apply (remove_at_index_in_range (BookCollection.mk [bookA1; bookA2]) 1).
  unfold BookCollection.__len__. simpl. lia.
Defined.

(** X6: for an index at or beyond the length, [remove_at_index] returns
    [None] and leaves the collection unchanged, where the indexed read of
    the same index raises [IndexError]. *)
Theorem remove_at_index_beyond (c : BookCollection.t) (i : Z) :
  Z.of_nat (BookCollection.__len__ c) ≤ i →
  BookCollection.remove_at_index i c = (inr None, c) ∧
  BookCollection.__getitem__ c (BookCollection.KInt i) = inl IndexError.
Proof.
  unfold BookCollection.__len__. intros Hi. split.
  - cbv [BookCollection.remove_at_index mbind M_bind get].
    by rewrite decide_False by lia.
  - unfold BookCollection.__getitem__.
    rewrite list_index_out_of_range; [done|lia].
Qed.

Lemma remove_at_index_beyond_witness :
  BookCollection.remove_at_index 2 (BookCollection.mk [bookA1; bookA2])
  = (inr None, BookCollection.mk [bookA1; bookA2]) ∧
  BookCollection.__getitem__ (BookCollection.mk [bookA1; bookA2])
    (BookCollection.KInt 2) = inl IndexError.
Proof.
  apply (remove_at_index_beyond (BookCollection.mk [bookA1; bookA2]) 2).
  unfold BookCollection.__len__. simpl. lia.
Defined.

(** X7: after [clear] the collection is empty whatever it held: its
    length is zero, no value is a member, every integer index raises
    [IndexError], every slice with a non-zero step is the empty list, and
    [remove] finds nothing. *)
Theorem clear_empties (c : BookCollection.t) (x : pyval) (i : Z)
    (k : string) (start stop step : option Z) :
  let r := BookCollection.clear c in
  r.1 = inr () ∧
  BookCollection.__len__ r.2 = 0%nat ∧
  BookCollection.__contains__ r.2 x = false ∧
  BookCollection.__getitem__ r.2 (BookCollection.KInt i) = inl IndexError ∧
  (default 1 step ≠ 0 →
   BookCollection.__getitem__ r.2 (BookCollection.KSlice start stop step)
   = inr (BookCollection.Many [])) ∧
  BookCollection.remove k r.2 = (inr false, r.2).
Proof.
  simpl. split; [done|]. split; [done|]. split; [by destruct x|].
  split; [|split; [|done]].
  - unfold BookCollection.__getitem__. simpl.
    rewrite list_index_out_of_range; [done|simpl; lia].
  - intros Hst. unfold BookCollection.__getitem__. simpl.
    destruct (list_slice_ordered (@nil Book) start stop step Hst)
      as (r & -> & Hfw & Hbw).
    destruct (decide (0 < default 1 step)) as [Hpos|Hneg].
    + by rewrite (proj1 (sublist_nil_r r) (Hfw Hpos)).
    + by rewrite (proj1 (sublist_nil_r r) (Hbw ltac:(lia))).
Qed.

Lemma clear_empties_witness :
  BookCollection.__getitem__
    (BookCollection.clear (BookCollection.mk [bookA1; bookA2])).2
    (BookCollection.KSlice (Some (-3)) None (Some 2))
  = inr (BookCollection.Many []).
Proof.
  apply (clear_empties (BookCollection.mk [bookA1; bookA2]) VNone 0 "A1"
           (Some (-3)) None (Some 2)).
  simpl. lia.
Defined.

Lemma slice_length_all (n : nat) :
  slice_length 0 (Z.of_nat n) 1 = n ∧
  slice_length (Z.of_nat n - 1) (-1) (-1) = n.
Proof.
  unfold slice_length. split.
  - rewrite decide_False by lia. case_decide; [|lia].
    rewrite Z.div_1_r. lia.
  - rewrite decide_True by lia. case_decide; [|lia].
    replace (- -1) with 1 by lia. rewrite Z.div_1_r. lia.
Qed.

(** X8: the full slice [c[:]] is the list of all books in order, the same
    books that iteration yields, and [c[::-1]] is that list reversed. *)
Theorem getitem_full_slices (c : BookCollection.t) :
  BookCollection.__getitem__ c (BookCollection.KSlice None None None)
  = inr (BookCollection.Many (BookCollection.__iter__ c)) ∧
  BookCollection.__getitem__ c (BookCollection.KSlice None None (Some (-1)))
  = inr (BookCollection.Many (reverse (BookCollection.__iter__ c))).
Proof.
  unfold BookCollection.__getitem__, BookCollection.__iter__.
  set (l := BookCollection._books c).
  destruct (slice_length_all (length l)) as [Hfw Hbw]. split.
  - pose proof (list_slice_plain l None None) as Hp. cbv zeta in Hp.
    rewrite Hp. simpl. by rewrite Nat.sub_0_r, firstn_all.
  - unfold list_slice, slice_adjust. simpl.
    rewrite Hbw, slice_items_reverse.
    replace (Z.of_nat (length l) - 1 - (Z.of_nat (length l) - 1)) with 0
      by lia.
    replace (- -1) with 1 by lia.
    rewrite slice_items_contiguous;
      [|lia|rewrite length_reverse; simpl; lia].
    simpl. rewrite <- (length_reverse l). by rewrite firstn_all.
Qed.

(** * Further properties of the index *)

Lemma list_contains_iff (l : list Book) (b : Book) :
  list_contains l (VBook b) = true ↔ ∃ x, x ∈ l ∧ isbn x = isbn b.
Proof.
  unfold list_contains. rewrite existsb_exists. split.
  - intros (x & Hx & Heq). exists x. split; [by apply list_elem_of_In|].
    by apply bool_decide_eq_true in Heq.
  - intros (x & Hx & Heq). exists x. split; [by apply list_elem_of_In|].
    by apply bool_decide_eq_true.
Qed.

Lemma list_remove_absent (l : list Book) (b : Book) :
  (∀ x, x ∈ l → isbn x ≠ isbn b) → list_remove l b = l.
Proof.
  intros Hno. unfold list_remove.
  by rewrite (proj2 (list_find_absent (λ e, isbn e = isbn b) l) Hno).
Qed.

Lemma list_remove_split (l : list Book) (b : Book) :
  list_contains l (VBook b) = true →
  ∃ l1 x l2, l = l1 ++ x :: l2 ∧ isbn x = isbn b ∧
    (∀ y, y ∈ l1 → isbn y ≠ isbn b) ∧ list_remove l b = l1 ++ l2.
Proof.
  intros (x & Hx & Heq)%list_contains_iff. unfold list_remove.
  destruct (list_find (λ e, isbn e = isbn b) l) as [[i y]|] eqn:Hfind.
  - apply list_find_split in Hfind as (l1 & l2 & Hl & Hdel & Hy & Hl1).
    by exists l1, y, l2.
  - exfalso. by apply (proj1 (list_find_absent _ _) Hfind x).
Qed.

Lemma list_remove_not_contained (l : list Book) (b : Book) :
  list_contains l (VBook b) = false → list_remove l b = l.
Proof.
  intros Hc. apply list_remove_absent. intros x Hx Heq.
  apply not_true_iff_false in Hc. apply Hc, list_contains_iff. eauto.
Qed.

Section buckets.
Context `{Countable K}.
Implicit Types (d : gmap K (list Book)) (k : K) (b : Book).

Lemma bucket_append_lookup d k k' b :
  IndexDict.bucket_append d k b !! k'
  = if decide (k = k') then Some (default [] (d !! k) ++ [b]) else d !! k'.
Proof.
  unfold IndexDict.bucket_append. cbv zeta.
  destruct (decide (k = k')) as [<-|Hne].
  - rewrite lookup_alter_eq. destruct (d !! k) as [bucket|] eqn:Hd.
    + rewrite decide_False by done. by rewrite Hd.
    + rewrite decide_True by done. by rewrite lookup_insert_eq.
  - rewrite lookup_alter_ne by done.
    case_decide; [by rewrite lookup_insert_ne|done].
Qed.

Lemma bucket_remove_lookup d k k' b :
  IndexDict.bucket_remove d k b !! k'
  = if decide (k = k') then
      match d !! k with
      | Some bucket =>
          if list_contains bucket (VBook b) then
            match list_remove bucket b with
            | [] => None
            | bs => Some bs
            end
          else Some bucket
      | None => None
      end
    else d !! k'.
Proof.
  unfold IndexDict.bucket_remove.
  destruct (d !! k) as [bucket|] eqn:Hd.
  - destruct (list_contains bucket (VBook b)).
    + destruct (list_remove bucket b) as [|x bs].
      * destruct (decide (k = k')) as [<-|Hne];
          [by rewrite lookup_delete_eq|by rewrite lookup_delete_ne].
      * destruct (decide (k = k')) as [<-|Hne];
          [by rewrite lookup_insert_eq|by rewrite lookup_insert_ne].
    + by destruct (decide (k = k')) as [<-|Hne].
  - by destruct (decide (k = k')) as [<-|Hne].
Qed.

(** Read through [get]'s default, removal from a bucket is [list.remove]
    on the bucket. *)
Lemma bucket_remove_get d k k' b :
  default [] (IndexDict.bucket_remove d k b !! k')
  = if decide (k = k') then list_remove (default [] (d !! k)) b
    else default [] (d !! k').
Proof.
  rewrite bucket_remove_lookup. case_decide; [|done].
  destruct (d !! k) as [bucket|]; [|done]. simpl.
  destruct (list_contains bucket (VBook b)) eqn:Hc.
  - by destruct (list_remove bucket b).
  - simpl. by rewrite list_remove_not_contained.
Qed.

Lemma no_empty_bucket_empty : no_empty_bucket (∅ : gmap K (list Book)).
Proof. intros k. by rewrite lookup_empty. Qed.

Lemma bucket_append_no_empty d k b :
  no_empty_bucket d → no_empty_bucket (IndexDict.bucket_append d k b).
Proof.
  intros Hd k'. rewrite bucket_append_lookup. case_decide; [|apply Hd].
  intros [= Heq]. by destruct (default [] (d !! k)).
Qed.

Lemma bucket_remove_no_empty d k b :
  no_empty_bucket d → no_empty_bucket (IndexDict.bucket_remove d k b).
Proof.
  intros Hd k'. rewrite bucket_remove_lookup. case_decide; [|apply Hd].
  destruct (d !! k) as [bucket|] eqn:Hk; [|done].
  destruct (list_contains bucket (VBook b)).
  - by destruct (list_remove bucket b).
  - rewrite <- Hk. apply Hd.
Qed.

(** Appending a book to its bucket and removing it again restores the
    map when the bucket held no book with that isbn. *)
Lemma bucket_append_remove d k b :
  no_empty_bucket d →
  (∀ x, x ∈ default [] (d !! k) → isbn x ≠ isbn b) →
  IndexDict.bucket_remove (IndexDict.bucket_append d k b) k b = d.
Proof.
  intros Hd Hno. apply map_eq. intros k'.
  rewrite bucket_remove_lookup.
  destruct (decide (k = k')) as [<-|Hne];
    [|by rewrite bucket_append_lookup, decide_False].
  rewrite bucket_append_lookup, decide_True by done.
  assert (list_contains (default [] (d !! k) ++ [b]) (VBook b) = true)
    as ->.
  { apply list_contains_iff. exists b. split; [|done].
    apply elem_of_app. right. by left. }
  destruct (list_remove_split (default [] (d !! k) ++ [b]) b)
    as (l1 & x & l2 & Hl & Hx & Hl1 & ->).
  { apply list_contains_iff. exists b. split; [|done].
    apply elem_of_app. right. by left. }
  destruct (first_match_unique (λ e, isbn e = isbn b)
              l1 (default [] (d !! k)) x b l2 [])
    as (-> & _ & ->); try done.
  rewrite app_nil_r. destruct (d !! k) as [[|y bucket]|] eqn:Hk; try done.
  exfalso. by apply (Hd k).
Qed.
End buckets.

(** X9: [IndexDict.add_book] of a book returns; afterwards the isbn of the
    book maps to it and every other isbn to what it mapped to before, the
    book is appended to the bucket of its author and of its year and
    every other bucket is as before, and the index has grown by one entry
    exactly when the isbn was not a key. *)
Theorem index_add_book_spec (d : IndexDict.t) (b : Book) (k a : string)
    (y : Z) :
  let r := IndexDict.add_book (VBook b) d in
  r.1 = inr () ∧
  IndexDict.get_by_isbn r.2 k
  = (if decide (isbn b = k) then Some b else IndexDict.get_by_isbn d k) ∧
  IndexDict.get_by_author r.2 a
  = IndexDict.get_by_author d a ++ (if decide (author b = a) then [b] else []) ∧
  IndexDict.get_by_year r.2 y
  = IndexDict.get_by_year d y ++ (if decide (year b = y) then [b] else []) ∧
  IndexDict.__len__ r.2
  = (if IndexDict.__contains__ d (isbn b) then IndexDict.__len__ d
     else S (IndexDict.__len__ d)).
Proof.
  simpl. split; [done|].
  unfold IndexDict.get_by_isbn, IndexDict.get_by_author,
    IndexDict.get_by_year, IndexDict.__len__, IndexDict.__contains__.
  simpl. rewrite !bucket_append_lookup.
  split; [|split; [|split]].
  - apply lookup_insert.
  - case_decide as Ha; [by subst a|by rewrite app_nil_r].
  - case_decide as Hy; [by subst y|by rewrite app_nil_r].
  - rewrite map_size_insert. case_bool_decide as Hk.
    + by destruct Hk as [x ->].
    + by rewrite (proj2 (eq_None_not_Some _) Hk).
Qed.

(** X10: [IndexDict.remove_book] never raises and returns [True] exactly
    when the isbn of the book is a key.  Afterwards that isbn is not a
    key and the other isbns map as before; independently of the returned
    value, the bucket of the book's author (and of its year) has lost its
    first book with that isbn, if it had one, and the other buckets are
    as before. *)
Theorem index_remove_book_spec (d : IndexDict.t) (b : Book) (k a : string)
    (y : Z) :
  let r := IndexDict.remove_book b d in
  r.1 = inr (IndexDict.__contains__ d (isbn b)) ∧
  IndexDict.get_by_isbn r.2 k
  = (if decide (isbn b = k) then None else IndexDict.get_by_isbn d k) ∧
  IndexDict.get_by_author r.2 a
  = (if decide (author b = a)
     then list_remove (IndexDict.get_by_author d (author b)) b
     else IndexDict.get_by_author d a) ∧
  IndexDict.get_by_year r.2 y
  = (if decide (year b = y)
     then list_remove (IndexDict.get_by_year d (year b)) b
     else IndexDict.get_by_year d y) ∧
  IndexDict.__len__ d
  = (if IndexDict.__contains__ d (isbn b) then S (IndexDict.__len__ r.2)
     else IndexDict.__len__ r.2).
Proof.
  cbv zeta. split; [done|].
  unfold IndexDict.get_by_isbn, IndexDict.get_by_author,
    IndexDict.get_by_year, IndexDict.__len__.
  rewrite index_remove_by_isbn.
  cbv [IndexDict.remove_book mbind M_bind get put mret M_ret].
  cbn [snd IndexDict._by_author IndexDict._by_year].
  rewrite !bucket_remove_get.
  split; [apply lookup_delete|]. split; [done|]. split; [done|].
  rewrite map_size_delete. unfold IndexDict.__contains__.
  case_bool_decide as Hk.
  - destruct Hk as [x Hx]. rewrite Hx.
    assert (size (IndexDict._by_isbn d) ≠ 0%nat) as Hsz.
    { intros Hz%map_size_empty_inv. by rewrite Hz, lookup_empty in Hx. }
    simpl. lia.
  - by rewrite (proj2 (eq_None_not_Some _) Hk).
Qed.

(** X11: removing from the index a book that was just added restores the
    index, when its isbn was not a key, no bucket was empty, and the
    buckets of its author and year held no book with its isbn. *)
Theorem index_add_remove_roundtrip (d : IndexDict.t) (b : Book) :
  IndexDict._by_isbn d !! isbn b = None →
  no_empty_bucket (IndexDict._by_author d) →
  no_empty_bucket (IndexDict._by_year d) →
  (∀ x, x ∈ IndexDict.get_by_author d (author b) → isbn x ≠ isbn b) →
  (∀ x, x ∈ IndexDict.get_by_year d (year b) → isbn x ≠ isbn b) →
  IndexDict.remove_book b (IndexDict.add_book (VBook b) d).2
  = (inr true, d).
Proof.
  intros Hk Ha Hy Hna Hny.
  cbv [IndexDict.remove_book IndexDict.add_book modify mbind M_bind get put
       mret M_ret].
  cbn [snd IndexDict._by_isbn IndexDict._by_author IndexDict._by_year].
  rewrite lookup_insert_eq.
  rewrite bool_decide_eq_true_2 by eauto.
  rewrite delete_insert_id by done.
  rewrite !bucket_append_remove by done.
  by destruct d.
Qed.

Lemma index_add_remove_roundtrip_witness :
  IndexDict.remove_book bookA2
    (IndexDict.add_book (VBook bookA2)
       (IndexDict.add_book (VBook bookA1) IndexDict.__init__).2).2
  = (inr true, (IndexDict.add_book (VBook bookA1) IndexDict.__init__).2).
Proof.
  apply (index_add_remove_roundtrip
           (IndexDict.add_book (VBook bookA1) IndexDict.__init__).2 bookA2).
  - vm_compute. reflexivity.
  - apply bucket_append_no_empty, no_empty_bucket_empty.
  - apply bucket_append_no_empty, no_empty_bucket_empty.
  - intros x Hx. vm_compute in Hx.
    apply list_elem_of_singleton in Hx as ->. discriminate.
  - intros x Hx. vm_compute in Hx. by apply elem_of_nil in Hx.
Defined.

(** * Further properties of the library *)

Lemma step_add_Book (s : Library.t) (b : Book) :
  step s (AddBook (VBook b)) =
    Library.mk (Library.name s)
      (BookCollection.mk (BookCollection._books (Library.books s) ++ [b]))
      (IndexDict.mk
         (<[isbn b := b]> (IndexDict._by_isbn (Library.indexes s)))
         (IndexDict.bucket_append
            (IndexDict._by_author (Library.indexes s)) (author b) b)
         (IndexDict.bucket_append
            (IndexDict._by_year (Library.indexes s)) (year b) b)).
Proof. unfold step. by rewrite add_book_Book. Qed.

Lemma step_remove_absent (s : Library.t) (k : string) :
  IndexDict._by_isbn (Library.indexes s) !! k = None →
  step s (RemoveBook k) = s.
Proof. intros Hk. unfold step. by rewrite remove_book_absent. Qed.

(** The library after a [remove_book] that finds its book, when the
    sequence holds a book with that isbn. *)
Lemma step_remove_present (s : Library.t) (k : string) (book : Book) :
  IndexDict._by_isbn (Library.indexes s) !! k = Some book →
  (∃ b, b ∈ BookCollection._books (Library.books s) ∧ isbn b = k) →
  ∃ l1 x l2,
    BookCollection._books (Library.books s) = l1 ++ x :: l2 ∧ isbn x = k ∧
    (∀ y, y ∈ l1 → isbn y ≠ k) ∧
    step s (RemoveBook k) =
      Library.mk (Library.name s) (BookCollection.mk (l1 ++ l2))
        (IndexDict.mk
           (delete (isbn book) (IndexDict._by_isbn (Library.indexes s)))
           (IndexDict.bucket_remove
              (IndexDict._by_author (Library.indexes s)) (author book) book)
           (IndexDict.bucket_remove
              (IndexDict._by_year (Library.indexes s)) (year book) book)).
Proof.
  intros Hk Hin. unfold step.
  rewrite (remove_book_present k book) by done.
  destruct (collection_remove_found k (Library.books s) Hin)
    as (l1 & x & l2 & Hl & Hx & Hl1 & ->).
  exists l1, x, l2. repeat split; try done. simpl. do 2 f_equal.
  cbv [IndexDict.remove_book mbind M_bind get put mret M_ret]. simpl.
  f_equal. case_bool_decide as Hb; [done|].
  symmetry. apply delete_id. by apply eq_None_not_Some.
Qed.

Lemma run_invariant (P : Library.t → Prop) :
  (∀ s o, P s → P (step s o)) →
  ∀ ops s, P s → P (run s ops).
Proof.
  intros Hstep ops. induction ops as [|o ops IH]; intros s Hs; [done|].
  simpl. apply IH, Hstep, Hs.
Qed.

Lemma index_in_sequence_step (s : Library.t) (o : op) :
  index_in_sequence s → index_in_sequence (step s o).
Proof.
  intros Hs. destruct o as [x|k].
  - destruct x as [b| | | |];
      try (by rewrite consistent_add_rejected).
    rewrite step_add_Book. intros k x. simpl. intros Hk.
    destruct (decide (isbn b = k)) as [<-|Hne].
    + rewrite lookup_insert_eq in Hk. injection Hk as <-.
      split; [done|]. apply elem_of_app. right. by left.
    + rewrite lookup_insert_ne in Hk by done.
      destruct (Hs k x Hk) as [Hx Hin]. split; [done|].
      apply elem_of_app. by left.
  - destruct (IndexDict._by_isbn (Library.indexes s) !! k)
      as [book|] eqn:Hk; [|by rewrite step_remove_absent].
    destruct (Hs k book Hk) as [Hbook Hin].
    destruct (step_remove_present s k book Hk) as
      (l1 & x & l2 & Hl & Hx & Hl1 & ->); [eauto|].
    intros k' b'. simpl. rewrite Hbook. intros Hk'.
    destruct (decide (k = k')) as [<-|Hne];
      [by rewrite lookup_delete_eq in Hk'|].
    rewrite lookup_delete_ne in Hk' by done.
    destruct (Hs k' b' Hk') as [Hb' Hin']. split; [done|].
    rewrite Hl in Hin'. apply elem_of_app in Hin' as [Hin'|Hin'].
    + apply elem_of_app. by left.
    + apply elem_of_cons in Hin' as [->|Hin']; [congruence|].
      apply elem_of_app. by right.
Qed.

(** X12: in every library reached from an empty one by any calls of
    [add_book] and [remove_book] (duplicate isbns and rejected values
    included), a book that [search_by_isbn] returns has the isbn asked
    for and is in [get_all()]: the isbn index never holds a book that the
    sequence has lost. *)
Theorem search_by_isbn_in_sequence (nm : string) (ops : list op)
    (k : string) (b : Book) :
  let s := run (Library.__init__ nm) ops in
  Library.search_by_isbn s k = Some b →
  isbn b = k ∧ b ∈ BookCollection._books (Library.get_all_books s) ∧
  BookCollection.__contains__ (Library.get_all_books s) (VStr k) = true.
Proof.
  intros s Hb.
  assert (index_in_sequence s) as Hs.
  { apply run_invariant; [apply index_in_sequence_step|].
    intros k' b' Hk'. simpl in Hk'. by rewrite lookup_empty in Hk'. }
  destruct (Hs k b Hb) as [Hk Hin]. split; [done|]. split; [done|].
  apply contains_str_iff. eauto.
Qed.

Lemma search_by_isbn_in_sequence_witness :
  isbn bookA1' = "A1"%string ∧
  bookA1' ∈ BookCollection._books (Library.get_all_books
    (run lib0 [AddBook (VBook bookA1); AddBook (VBook bookA2);
               AddBook (VBook bookA1'); RemoveBook "A2"])) ∧
  BookCollection.__contains__ (Library.get_all_books
    (run lib0 [AddBook (VBook bookA1); AddBook (VBook bookA2);
               AddBook (VBook bookA1'); RemoveBook "A2"])) (VStr "A1")
  = true.
Proof.
  apply (search_by_isbn_in_sequence "Main Library"
           [AddBook (VBook bookA1); AddBook (VBook bookA2);
            AddBook (VBook bookA1'); RemoveBook "A2"] "A1" bookA1').
  vm_compute. reflexivity.
Defined.

Lemma no_empty_bucket_step (s : Library.t) (o : op) :
  no_empty_bucket (IndexDict._by_author (Library.indexes s)) ∧
  no_empty_bucket (IndexDict._by_year (Library.indexes s)) →
  no_empty_bucket (IndexDict._by_author (Library.indexes (step s o))) ∧
  no_empty_bucket (IndexDict._by_year (Library.indexes (step s o))).
Proof.
  intros [Ha Hy]. destruct o as [x|k].
  - destruct x as [b| | | |];
      try (by rewrite consistent_add_rejected).
    rewrite step_add_Book. simpl.
    split; by apply bucket_append_no_empty.
  - unfold step.
    destruct (IndexDict._by_isbn (Library.indexes s) !! k)
      as [book|] eqn:Hk; [|by rewrite remove_book_absent].
    rewrite (remove_book_present k book) by done.
    cbv [IndexDict.remove_book mbind M_bind get put mret M_ret]. simpl.
    split; by apply bucket_remove_no_empty.
Qed.

(** X13: in every library reached from an empty one by any calls, no
    author or year bucket is stored empty: [search_by_author] and
    [search_by_year] return the empty list exactly for the keys that the
    maps do not have. *)
Theorem no_bucket_is_empty (nm : string) (ops : list op) (a : string)
    (y : Z) :
  let d := Library.indexes (run (Library.__init__ nm) ops) in
  (Library.search_by_author (run (Library.__init__ nm) ops) a = [] ↔
   IndexDict._by_author d !! a = None) ∧
  (Library.search_by_year (run (Library.__init__ nm) ops) y = [] ↔
   IndexDict._by_year d !! y = None).
Proof.
  intros d.
  assert (no_empty_bucket (IndexDict._by_author d) ∧
          no_empty_bucket (IndexDict._by_year d)) as [Ha Hy].
  { subst d.
    apply (run_invariant (λ s,
      no_empty_bucket (IndexDict._by_author (Library.indexes s)) ∧
      no_empty_bucket (IndexDict._by_year (Library.indexes s))));
      [apply no_empty_bucket_step|].
    split; apply no_empty_bucket_empty. }
  unfold Library.search_by_author, Library.search_by_year,
    IndexDict.get_by_author, IndexDict.get_by_year. fold d.
  split.
  - specialize (Ha a). destruct (IndexDict._by_author d !! a) as [[|x l]|];
      simpl; split; congruence.
  - specialize (Hy y). destruct (IndexDict._by_year d !! y) as [[|x l]|];
      simpl; split; congruence.
Qed.

(** ** The index as a grouping of the sequence *)

Lemma filter_no_match {A} (P : A → Prop) `{∀ x, Decision (P x)}
    (l : list A) :
  (∀ y, y ∈ l → ¬ P y) → filter P l = [].
Proof.
  induction l as [|x l IH]; intros Hno; [done|].
  rewrite filter_cons, decide_False by (apply Hno; by left).
  apply IH. intros y Hy. apply Hno. by right.
Qed.

Lemma filter_empty_no_match {A} (P : A → Prop) `{∀ x, Decision (P x)}
    (l : list A) :
  filter P l = [] → ∀ y, y ∈ l → ¬ P y.
Proof.
  intros Hf y Hy HP.
  assert (y ∈ filter P l) as Hin by by apply list_elem_of_filter.
  rewrite Hf in Hin. by apply elem_of_nil in Hin.
Qed.

Lemma list_remove_middle (l1 l2 : list Book) (x b : Book) :
  isbn x = isbn b → (∀ y, y ∈ l1 → isbn y ≠ isbn b) →
  list_remove (l1 ++ x :: l2) b = l1 ++ l2.
Proof.
  intros Hx Hl1.
  destruct (list_remove_split (l1 ++ x :: l2) b)
    as (a1 & z & a2 & Hl & Hz & Ha1 & ->).
  { apply list_contains_iff. exists x. split; [|done].
    apply elem_of_app. right. by left. }
  destruct (first_match_unique (λ e, isbn e = isbn b) a1 l1 z x a2 l2)
    as (-> & _ & ->); done.
Qed.

Section grouping.
Context {K : Type} `{Countable K} (key : Book → K).

Lemma default_group_lookup (l : list Book) (k : K) :
  default [] (group_lookup key l k) = filter (λ b, key b = k) l.
Proof. unfold group_lookup. by destruct (filter _ l). Qed.

Lemma group_lookup_snoc (l : list Book) (b : Book) (k : K) :
  group_lookup key (l ++ [b]) k
  = if decide (key b = k)
    then Some (default [] (group_lookup key l k) ++ [b])
    else group_lookup key l k.
Proof.
  rewrite default_group_lookup. unfold group_lookup.
  rewrite filter_app, filter_cons, filter_nil.
  case_decide.
  - by destruct (filter (λ b0, key b0 = k) l).
  - by rewrite app_nil_r.
Qed.

(** Appending to the bucket of a book keeps a map the grouping of the
    sequence. *)
Lemma grouped_append (d : gmap K (list Book)) (l : list Book) (b : Book) :
  (∀ k, d !! k = group_lookup key l k) →
  ∀ k, IndexDict.bucket_append d (key b) b !! k
       = group_lookup key (l ++ [b]) k.
Proof.
  intros Hd k. rewrite bucket_append_lookup, group_lookup_snoc.
  case_decide as Hk; [subst k|done]. by rewrite Hd.
Qed.

(** So does removing from its bucket the book that the sequence loses. *)
Lemma grouped_remove (d : gmap K (list Book)) (l1 l2 : list Book)
    (x : Book) :
  (∀ k, d !! k = group_lookup key (l1 ++ x :: l2) k) →
  (∀ y, y ∈ l1 → isbn y ≠ isbn x) →
  ∀ k, IndexDict.bucket_remove d (key x) x !! k
       = group_lookup key (l1 ++ l2) k.
Proof.
  intros Hd Hl1 k. rewrite bucket_remove_lookup.
  destruct (decide (key x = k)) as [<-|Hne].
  - rewrite Hd. unfold group_lookup.
    rewrite !filter_app, filter_cons, decide_True by done.
    set (f1 := filter (λ b, key b = key x) l1).
    set (f2 := filter (λ b, key b = key x) l2).
    assert (∀ y, y ∈ f1 → isbn y ≠ isbn x) as Hf1.
    { intros y [_ Hy]%list_elem_of_filter. by apply Hl1. }
    assert (list_contains (f1 ++ x :: f2) (VBook x) = true) as Hc.
    { apply list_contains_iff. exists x. split; [|done].
      apply elem_of_app. right. by left. }
    destruct (f1 ++ x :: f2) as [|z zs] eqn:Hz;
      [by destruct f1|].
    rewrite Hc, <- Hz. by rewrite list_remove_middle.
  - rewrite Hd. unfold group_lookup.
    by rewrite !filter_app, filter_cons, decide_False.
Qed.
End grouping.

Lemma synced_init (nm : string) : synced (Library.__init__ nm).
Proof.
  unfold synced. simpl. split; [constructor|].
  repeat split; intros k; by rewrite lookup_empty.
Qed.

Lemma synced_add_fresh (s : Library.t) (b : Book) :
  synced s →
  IndexDict.__contains__ (Library.indexes s) (isbn b) = false →
  synced (step s (AddBook (VBook b))).
Proof.
  intros (Hnd & Hi & Ha & Hy) Hfresh.
  apply bool_decide_eq_false in Hfresh.
  assert (filter (λ x, isbn x = isbn b)
            (BookCollection._books (Library.books s)) = []) as Hnone.
  { destruct (filter _ _) as [|x xs] eqn:Hf; [done|].
    exfalso. apply Hfresh. rewrite Hi, Hf. by eexists. }
  rewrite step_add_Book. unfold synced. simpl.
  split; [|split; [|split]].
  - rewrite fmap_app. apply NoDup_app. split; [done|]. split.
    + intros k (x & -> & Hx)%list_elem_of_fmap Hk.
      apply list_elem_of_singleton in Hk.
      by apply (filter_empty_no_match _ _ Hnone x).
    + apply NoDup_singleton.
  - intros k. rewrite filter_app, filter_cons, filter_nil, head_app.
    destruct (decide (isbn b = k)) as [<-|Hne].
    + by rewrite lookup_insert_eq, Hnone.
    + rewrite lookup_insert_ne, Hi by done.
      by destruct (head (filter _ _)).
  - by apply grouped_append.
  - by apply grouped_append.
Qed.

Lemma synced_remove (s : Library.t) (k : string) :
  synced s → synced (step s (RemoveBook k)).
Proof.
  intros (Hnd & Hi & Ha & Hy).
  destruct (IndexDict._by_isbn (Library.indexes s) !! k)
    as [book|] eqn:Hk; [|by rewrite step_remove_absent].
  assert (book ∈ filter (λ b, isbn b = k)
            (BookCollection._books (Library.books s))) as Hin.
  { rewrite Hi in Hk. destruct (filter _ _) as [|z zs]; [done|].
    injection Hk as ->. by left. }
  apply list_elem_of_filter in Hin as [Hbook Hin].
  destruct (step_remove_present s k book Hk) as
    (l1 & x & l2 & Hl & Hx & Hl1 & ->); [eauto|].
  assert (book = x) as ->.
  { rewrite Hi, Hl in Hk.
    rewrite filter_app, (filter_no_match _ l1 Hl1) in Hk.
    rewrite filter_cons, decide_True in Hk by done. by injection Hk. }
  rewrite Hl in Hnd, Hi, Ha, Hy. subst k.
  rewrite fmap_app, fmap_cons in Hnd.
  apply NoDup_app in Hnd as (Hnd1 & Hdisj & Hnd2).
  apply NoDup_cons in Hnd2 as [Hx2 Hnd2].
  assert (∀ y, y ∈ l2 → isbn y ≠ isbn x) as Hl2.
  { intros y Hy2 Heq. apply Hx2. rewrite <- Heq.
    apply list_elem_of_fmap. eauto. }
  unfold synced. simpl. split; [|split; [|split]].
  - rewrite fmap_app. apply NoDup_app. repeat split; [done| |done].
    intros y Hy1 Hy2. apply (Hdisj y Hy1). by right.
  - intros k. destruct (decide (isbn x = k)) as [<-|Hne].
    + rewrite lookup_delete_eq, filter_app.
      by rewrite (filter_no_match _ l1 Hl1), (filter_no_match _ l2 Hl2).
    + rewrite lookup_delete_ne, Hi by done.
      by rewrite !filter_app, filter_cons, decide_False.
  - by apply grouped_remove.
  - by apply grouped_remove.
Qed.

Lemma synced_run (ops : list op) (s : Library.t) :
  synced s → fresh_adds s ops = true → synced (run s ops).
Proof.
  revert s. induction ops as [|o ops IH]; intros s Hs Hfresh; [done|].
  simpl in Hfresh. apply andb_true_iff in Hfresh as [Ho Hrest].
  simpl. apply IH; [|done].
  destruct o as [x|k].
  - destruct x as [b| | | |];
      try (by rewrite consistent_add_rejected).
    apply synced_add_fresh; [done|]. by apply negb_true_iff.
  - by apply synced_remove.
Qed.

(** Two synced libraries with one name and one sequence are the same
    library: the index is a function of the sequence. *)
Lemma synced_ext (s1 s2 : Library.t) :
  synced s1 → synced s2 →
  Library.name s1 = Library.name s2 →
  BookCollection._books (Library.books s1)
  = BookCollection._books (Library.books s2) →
  s1 = s2.
Proof.
  destruct s1 as [n1 [l1] [i1 a1 y1]], s2 as [n2 [l2] [i2 a2 y2]]. simpl.
  intros (_ & Hi1 & Ha1 & Hy1) (_ & Hi2 & Ha2 & Hy2) -> ->.
  simpl in *.
  assert (i1 = i2) as -> by (apply map_eq; intros k; by rewrite Hi1, Hi2).
  assert (a1 = a2) as -> by (apply map_eq; intros k; by rewrite Ha1, Ha2).
  assert (y1 = y2) as -> by (apply map_eq; intros k; by rewrite Hy1, Hy2).
  done.
Qed.

Lemma synced_reachable (nm : string) (ops : list op) :
  fresh_adds (Library.__init__ nm) ops = true →
  synced (run (Library.__init__ nm) ops).
Proof. intros Hfresh. by apply synced_run; [apply synced_init|]. Qed.

Lemma NoDup_fmap_eq {A B} (f : A → B) (l : list A) (x y : A) :
  NoDup (f <$> l) → x ∈ l → y ∈ l → f x = f y → x = y.
Proof.
  induction l as [|z l IH]; intros Hnd Hx Hy Heq.
  - by apply elem_of_nil in Hx.
  - rewrite fmap_cons in Hnd. apply NoDup_cons in Hnd as [Hz Hnd].
    apply elem_of_cons in Hx as [->|Hx]; apply elem_of_cons in Hy as [->|Hy].
    + done.
    + exfalso. apply Hz. rewrite Heq. apply list_elem_of_fmap. eauto.
    + exfalso. apply Hz. rewrite <- Heq. apply list_elem_of_fmap. eauto.
    + by apply IH.
Qed.

Lemma group_lookup_is_Some {K} `{EqDecision K} (key : Book → K)
    (l : list Book) (k : K) :
  is_Some (group_lookup key l k) ↔ k ∈ key <$> l.
Proof.
  unfold group_lookup. rewrite list_elem_of_fmap. split.
  - destruct (filter (λ b, key b = k) l) as [|x xs] eqn:Hf;
      [by intros [? ?]|]. intros _.
    assert (x ∈ filter (λ b, key b = k) l) as Hx by (rewrite Hf; by left).
    apply list_elem_of_filter in Hx as [Hk Hx]. eauto.
  - intros (b & -> & Hb).
    assert (b ∈ filter (λ b0, key b0 = key b) l) as Hin
      by by apply list_elem_of_filter.
    destruct (filter _ l); [by apply elem_of_nil in Hin|by eexists].
Qed.

(** X14: in every library reached from an empty one by calls in which no
    [add_book] is given an isbn that the index already has,
    [search_by_author] and [search_by_year] return exactly the books of
    [get_all()] with that author or year, in insertion order. *)
Theorem indexed_searches_are_filters (nm : string) (ops : list op)
    (a : string) (y : Z) :
  fresh_adds (Library.__init__ nm) ops = true →
  let s := run (Library.__init__ nm) ops in
  Library.search_by_author s a
  = filter (λ b, author b = a)
      (BookCollection._books (Library.get_all_books s)) ∧
  Library.search_by_year s y
  = filter (λ b, year b = y)
      (BookCollection._books (Library.get_all_books s)).
Proof.
  intros Hfresh s.
  destruct (synced_reachable nm ops Hfresh) as (_ & _ & Ha & Hy).
  unfold Library.search_by_author, Library.search_by_year,
    IndexDict.get_by_author, IndexDict.get_by_year, Library.get_all_books.
  fold s in Ha, Hy.
  by rewrite Ha, Hy, !default_group_lookup.
Qed.

Lemma indexed_searches_are_filters_witness :
  Library.search_by_author
    (run lib0 [AddBook (VBook bookA1); AddBook (VBook bookA2);
               RemoveBook "A1"; AddBook (VBook bookA1')]) "X"
  = filter (λ b, author b = "X"%string)
      (BookCollection._books (Library.get_all_books
         (run lib0 [AddBook (VBook bookA1); AddBook (VBook bookA2);
                    RemoveBook "A1"; AddBook (VBook bookA1')]))).
Proof.
  apply (indexed_searches_are_filters "Main Library"
           [AddBook (VBook bookA1); AddBook (VBook bookA2);
            RemoveBook "A1"; AddBook (VBook bookA1')] "X" 0).
  vm_compute. reflexivity.
Defined.

(** X15: in such a library [search_by_isbn] finds exactly the books of
    [get_all()]: it returns a book for an isbn iff that book is in the
    sequence under that isbn, and the isbn index and the collection agree
    on which isbns are present. *)
Theorem search_by_isbn_iff_member (nm : string) (ops : list op)
    (k : string) (b : Book) :
  fresh_adds (Library.__init__ nm) ops = true →
  let s := run (Library.__init__ nm) ops in
  (Library.search_by_isbn s k = Some b ↔
   b ∈ BookCollection._books (Library.get_all_books s) ∧ isbn b = k) ∧
  IndexDict.__contains__ (Library.indexes s) k
  = BookCollection.__contains__ (Library.get_all_books s) (VStr k).
Proof.
  intros Hfresh s.
  destruct (synced_reachable nm ops Hfresh) as (Hnd & Hi & _ & _).
  fold s in Hnd, Hi.
  unfold Library.search_by_isbn, IndexDict.get_by_isbn,
    Library.get_all_books.
  set (l := BookCollection._books (Library.books s)) in *.
  assert (∀ x, IndexDict._by_isbn (Library.indexes s) !! k = Some x ↔
               x ∈ l ∧ isbn x = k) as Hiff.
  { intros x. rewrite Hi. split.
    - intros Hh.
      assert (x ∈ filter (λ b0, isbn b0 = k) l) as Hx.
      { destruct (filter _ l); [done|]. injection Hh as ->. by left. }
      apply list_elem_of_filter in Hx. tauto.
    - intros [Hx Hk].
      assert (x ∈ filter (λ b0, isbn b0 = k) l) as Hin
        by by apply list_elem_of_filter.
      destruct (filter (λ b0, isbn b0 = k) l) as [|z zs] eqn:Hf;
        [by apply elem_of_nil in Hin|].
      assert (z ∈ filter (λ b0, isbn b0 = k) l) as Hz
        by (rewrite Hf; by left).
      apply list_elem_of_filter in Hz as [Hzk Hz]. simpl. f_equal.
      apply (NoDup_fmap_eq isbn l); [done..|congruence]. }
  split; [apply Hiff|].
  unfold IndexDict.__contains__.
  destruct (BookCollection.__contains__ (Library.books s) (VStr k)) eqn:Hc.
  - apply contains_str_iff in Hc as (x & Hx & Hk).
    apply bool_decide_eq_true. exists x. apply Hiff. done.
  - apply bool_decide_eq_false. intros [x Hx]. apply Hiff in Hx as [Hx Hk].
    apply not_true_iff_false in Hc. apply Hc, contains_str_iff. eauto.
Qed.

Lemma search_by_isbn_iff_member_witness :
  IndexDict.__contains__ (Library.indexes
    (run lib0 [AddBook (VBook bookA1); RemoveBook "A1";
               AddBook (VBook bookA2)])) "A1"
  = BookCollection.__contains__ (Library.get_all_books
    (run lib0 [AddBook (VBook bookA1); RemoveBook "A1";
               AddBook (VBook bookA2)])) (VStr "A1").
Proof.
  apply (search_by_isbn_iff_member "Main Library"
           [AddBook (VBook bookA1); RemoveBook "A1"; AddBook (VBook bookA2)]
           "A1" bookA1).
  vm_compute. reflexivity.
Defined.

(** X16: in such a library, adding a book whose isbn the index does not
    have and then removing that isbn returns [True] and gives back the
    library as it was: sequence, isbn map, author and year buckets. *)
Theorem add_remove_roundtrip (nm : string) (ops : list op) (b : Book) :
  fresh_adds (Library.__init__ nm) ops = true →
  let s := run (Library.__init__ nm) ops in
  IndexDict.__contains__ (Library.indexes s) (isbn b) = false →
  Library.remove_book (isbn b) (Library.add_book (VBook b) s).2
  = (inr true, s).
Proof.
  intros Hfresh s Hb.
  pose proof (synced_reachable nm ops Hfresh) as Hs. fold s in Hs.
  pose proof (synced_add_fresh s b Hs Hb) as Hs1.
  pose proof (synced_remove _ (isbn b) Hs1) as Hs2.
  set (s1 := step s (AddBook (VBook b))) in *.
  assert (IndexDict._by_isbn (Library.indexes s1) !! isbn b = Some b) as Hk.
  { subst s1. rewrite step_add_Book. simpl. apply lookup_insert_eq. }
  destruct (step_remove_present s1 (isbn b) b Hk) as
    (l1 & x & l2 & Hl & Hx & Hl1 & Hstep).
  { exists b. split; [|done]. subst s1. rewrite step_add_Book. simpl.
    apply elem_of_app. right. by left. }
  assert (l1 = BookCollection._books (Library.books s) ∧ l2 = [])
    as [-> ->].
  { destruct (first_match_unique (λ e, isbn e = isbn b)
                l1 (BookCollection._books (Library.books s)) x b l2 [])
      as (-> & _ & ->); try done.
    destruct Hs as (_ & Hi & _ & _).
    apply bool_decide_eq_false in Hb. rewrite Hi in Hb.
    apply (filter_empty_no_match (λ e, isbn e = isbn b)).
    destruct (filter _ _); [done|]. exfalso. apply Hb. by eexists. }
  change (Library.add_book (VBook b) s).2 with s1.
  rewrite (surjective_pairing (Library.remove_book (isbn b) s1)).
  f_equal.
  - by rewrite (remove_book_present (isbn b) b).
  - change (Library.remove_book (isbn b) s1).2
      with (step s1 (RemoveBook (isbn b))).
    apply synced_ext; [done|done| |].
    + rewrite Hstep. subst s1. by rewrite step_add_Book.
    + rewrite Hstep. simpl. by rewrite app_nil_r.
Qed.

Lemma add_remove_roundtrip_witness :
  Library.remove_book (isbn bookA2)
    (Library.add_book (VBook bookA2)
       (run lib0 [AddBook (VBook bookA1)])).2
  = (inr true, run lib0 [AddBook (VBook bookA1)]).
Proof.
  apply (add_remove_roundtrip "Main Library" [AddBook (VBook bookA1)] bookA2).
  - vm_compute. reflexivity.
  - vm_compute. reflexivity.
Defined.

Lemma length_remove_dups_le `{EqDecision A} (l : list A) :
  (length (remove_dups l) ≤ length l)%nat.
Proof.
  induction l as [|x l IH]; simpl; [done|].
  destruct (decide_rel elem_of x l); simpl; lia.
Qed.

(** X17: in every library reached from an empty one without re-adding a
    present isbn, the number of distinct authors that [get_statistics]
    reports is the number of author buckets of the index. *)
Theorem unique_authors_is_bucket_count (nm : string) (ops : list op) :
  fresh_adds (Library.__init__ nm) ops = true →
  let s := run (Library.__init__ nm) ops in
  Library.unique_authors (Library.get_statistics s)
  = size (IndexDict._by_author (Library.indexes s)).
Proof.
  intros Hfresh s.
  destruct (synced_reachable nm ops Hfresh) as (_ & _ & Ha & _).
  fold s in Ha. unfold Library.get_statistics, BookCollection.__iter__.
  rewrite collect_spec. simpl.
  rewrite <- size_dom. f_equal. apply set_eq. intros a.
  by rewrite elem_of_dom, Ha, group_lookup_is_Some, elem_of_list_to_set.
Qed.

Lemma unique_authors_is_bucket_count_witness :
  Library.unique_authors (Library.get_statistics
    (run lib0 [AddBook (VBook bookA1); AddBook (VBook bookA2);
               RemoveBook "A1"]))
  = size (IndexDict._by_author (Library.indexes
    (run lib0 [AddBook (VBook bookA1); AddBook (VBook bookA2);
               RemoveBook "A1"]))).
Proof.
  apply (unique_authors_is_bucket_count "Main Library"
           [AddBook (VBook bookA1); AddBook (VBook bookA2);
            RemoveBook "A1"]).
  vm_compute. reflexivity.
Defined.

(** X18: for every library, [get_statistics] reports no more distinct
    authors and no more genres than books, and its year range is [None]
    only when there is no book and otherwise a pair whose first year is
    not after the second. *)
Theorem get_statistics_bounds (s : Library.t) :
  let st := Library.get_statistics s in
  (Library.unique_authors st ≤ Library.total_books st)%nat ∧
  (length (Library.genres st) ≤ Library.total_books st)%nat ∧
  match Library.year_range st with
  | Some (lo, hi) => lo ≤ hi
  | None => Library.total_books st = 0%nat
  end.
Proof.
  unfold Library.get_statistics, BookCollection.__iter__,
    BookCollection.__len__.
  set (l := BookCollection._books (Library.books s)).
  rewrite collect_spec. simpl. split; [|split].
  - rewrite size_distinct.
    etrans; [apply length_remove_dups_le|]. by rewrite length_fmap.
  - change (length (elements ?X)) with (size X).
    rewrite size_distinct.
    etrans; [apply length_remove_dups_le|]. by rewrite length_fmap.
  - destruct l as [|b l'].
    { replace (list_to_set (year <$> [])) with (∅ : gset Z) by done.
      by rewrite years_range_empty. }
    destruct (years_range_nonempty (list_to_set (year <$> b :: l')))
      as (lo & hi & -> & Hlo & _ & Hall).
    { simpl. intros Hz. assert (year b ∈ (∅ : gset Z)) as Hin
        by (rewrite <- Hz; apply elem_of_union_l, elem_of_singleton; done).
      by apply not_elem_of_empty in Hin. }
    specialize (Hall lo Hlo). lia.
Qed.

(** X19: for every library, [add_book] of a book returns, and afterwards
    the book is what [search_by_isbn] returns for its isbn, it is the
    last result of the searches by its author, its year and its genre,
    and the results for every other isbn, author, year and genre are as
    before. *)
Theorem add_book_searches (s : Library.t) (b : Book) (k a g : string)
    (y : Z) :
  let r := Library.add_book (VBook b) s in
  r.1 = inr () ∧
  Library.search_by_isbn r.2 k
  = (if decide (isbn b = k) then Some b else Library.search_by_isbn s k) ∧
  Library.search_by_author r.2 a
  = Library.search_by_author s a
    ++ (if decide (author b = a) then [b] else []) ∧
  Library.search_by_year r.2 y
  = Library.search_by_year s y ++ (if decide (year b = y) then [b] else []) ∧
  Library.search_by_genre r.2 g
  = Library.search_by_genre s g
    ++ (if decide (genre b = g) then [b] else []).
Proof.
  cbv zeta. rewrite add_book_Book. cbn [fst snd]. split; [done|].
  unfold Library.search_by_isbn, Library.search_by_author,
    Library.search_by_year, Library.search_by_genre,
    IndexDict.get_by_isbn, IndexDict.get_by_author, IndexDict.get_by_year,
    BookCollection.__iter__.
  cbn [Library.indexes Library.books IndexDict._by_isbn
       IndexDict._by_author IndexDict._by_year BookCollection._books].
  rewrite !bucket_append_lookup, !genre_loop. simpl.
  split; [apply lookup_insert|]. split; [|split].
  - case_decide as Ha; [by subst a|by rewrite app_nil_r].
  - case_decide as Hy; [by subst y|by rewrite app_nil_r].
  - by rewrite filter_app.
Qed.

Lemma add_all_index (bs : list Book) (s : Library.t) (k a : string)
    (y : Z) :
  IndexDict._by_isbn (Library.indexes (add_all s bs)) !! k
  = match last (filter (λ b, isbn b = k) bs) with
    | Some b => Some b
    | None => IndexDict._by_isbn (Library.indexes s) !! k
    end ∧
  default [] (IndexDict._by_author (Library.indexes (add_all s bs)) !! a)
  = default [] (IndexDict._by_author (Library.indexes s) !! a)
    ++ filter (λ b, author b = a) bs ∧
  default [] (IndexDict._by_year (Library.indexes (add_all s bs)) !! y)
  = default [] (IndexDict._by_year (Library.indexes s) !! y)
    ++ filter (λ b, year b = y) bs.
Proof.
  revert s. induction bs as [|b bs IH]; intros s.
  - simpl. by rewrite !app_nil_r.
  - rewrite add_all_cons. destruct (IH (Library.add_book (VBook b) s).2)
      as (-> & -> & ->).
    rewrite add_book_Book. simpl. rewrite !bucket_append_lookup.
    rewrite !filter_cons. split; [|split].
    + destruct (decide (isbn b = k)) as [<-|Hne].
      * rewrite last_cons, lookup_insert_eq.
        by destruct (last (filter _ bs)).
      * by rewrite lookup_insert_ne.
    + destruct (decide (author b = a)) as [<-|Hne]; [|done].
      simpl. by rewrite <- app_assoc.
    + destruct (decide (year b = y)) as [<-|Hne]; [|done].
      simpl. by rewrite <- app_assoc.
Qed.

(** X20: for every library and every list of books added one after the
    other (isbns may repeat), [search_by_isbn] returns the last of the
    added books with that isbn, or what it returned before when there is
    none; [search_by_author] and [search_by_year] return their earlier
    results followed by the added books with that author or year, in the
    order of adding; and [get_all()] is the old sequence followed by
    all the added books. *)
Theorem add_all_searches (s : Library.t) (bs : list Book) (k a : string)
    (y : Z) :
  Library.search_by_isbn (add_all s bs) k
  = match last (filter (λ b, isbn b = k) bs) with
    | Some b => Some b
    | None => Library.search_by_isbn s k
    end ∧
  Library.search_by_author (add_all s bs) a
  = Library.search_by_author s a ++ filter (λ b, author b = a) bs ∧
  Library.search_by_year (add_all s bs) y
  = Library.search_by_year s y ++ filter (λ b, year b = y) bs ∧
  BookCollection._books (Library.get_all_books (add_all s bs))
  = BookCollection._books (Library.get_all_books s) ++ bs.
Proof.
  destruct (add_all_index bs s k a y) as (Hi & Ha & Hy).
  unfold Library.search_by_isbn, Library.search_by_author,
    Library.search_by_year, IndexDict.get_by_isbn, IndexDict.get_by_author,
    IndexDict.get_by_year, Library.get_all_books.
  by rewrite Hi, Ha, Hy, add_all_books.
Qed.

(** X21: in every library reached from an empty one by any calls,
    [remove_book] never raises and returns [True] exactly when the isbn
    is a key of the index; afterwards [search_by_isbn] of that isbn
    returns [None], every other isbn is found as before, and the sequence
    has lost at most one book, the others keeping their order. *)
Theorem remove_book_reachable (nm : string) (ops : list op)
    (k k' : string) :
  let s := run (Library.__init__ nm) ops in
  let r := Library.remove_book k s in
  r.1 = inr (IndexDict.__contains__ (Library.indexes s) k) ∧
  Library.search_by_isbn r.2 k'
  = (if decide (k = k') then None else Library.search_by_isbn s k') ∧
  sublist (BookCollection._books (Library.get_all_books r.2))
          (BookCollection._books (Library.get_all_books s)) ∧
  (length (BookCollection._books (Library.get_all_books s))
   ≤ S (length (BookCollection._books (Library.get_all_books r.2))))%nat.
Proof.
  intros s r.
  assert (index_in_sequence s) as Hs.
  { apply run_invariant; [apply index_in_sequence_step|].
    intros k0 b0 Hk0. simpl in Hk0. by rewrite lookup_empty in Hk0. }
  subst r. unfold Library.search_by_isbn, IndexDict.get_by_isbn,
    IndexDict.__contains__, Library.get_all_books.
  destruct (IndexDict._by_isbn (Library.indexes s) !! k)
    as [book|] eqn:Hk.
  - destruct (Hs k book Hk) as [Hbook Hin].
    destruct (step_remove_present s k book Hk) as
      (l1 & x & l2 & Hl & Hx & Hl1 & Hstep); [eauto|].
    rewrite (surjective_pairing (Library.remove_book k s)).
    change (Library.remove_book k s).2 with (step s (RemoveBook k)).
    rewrite Hstep, (remove_book_present k book) by done.
    cbn [fst snd Library.indexes Library.books IndexDict._by_isbn
         BookCollection._books].
    rewrite Hbook, Hl.
    split; [by rewrite bool_decide_eq_true_2|].
    split; [apply lookup_delete|]. split.
    + apply sublist_app; [done|]. by apply sublist_cons.
    + rewrite !length_app. simpl. lia.
  - rewrite remove_book_absent by done. simpl.
    split; [done|].
    split; [|split; [done|lia]].
    case_decide as Hkk; [by subst k'|done].
Qed.

(** X22: [Book.__eq__] is an equivalence on books that looks at the isbn
    only, and a book is never equal to a value that is not a [Book]. *)
Theorem book_eq_equivalence (b1 b2 b3 : Book) (x : pyval) :
  Book__eq__ b1 (VBook b1) = true ∧
  Book__eq__ b1 (VBook b2) = Book__eq__ b2 (VBook b1) ∧
  (Book__eq__ b1 (VBook b2) = true → Book__eq__ b2 (VBook b3) = true →
   Book__eq__ b1 (VBook b3) = true) ∧
  (Book__eq__ b1 (VBook b2) = true ↔ isbn b1 = isbn b2) ∧
  (isinstance_Book x = false → Book__eq__ b1 x = false).
Proof.
  simpl. split; [by apply bool_decide_eq_true|]. split.
  { apply bool_decide_ext. split; congruence. }
  split.
  { intros H12%bool_decide_eq_true H23%bool_decide_eq_true.
    apply bool_decide_eq_true. congruence. }
  split; [apply bool_decide_eq_true|].
  by destruct x.
Qed.

Lemma book_eq_equivalence_witness :
  Book__eq__ bookA1 (VBook bookA1') = true ∧
  Book__eq__ bookA1 (VStr "A1") = false.
Proof.
  pose proof (book_eq_equivalence bookA1 bookA1' bookA1 (VStr "A1"))
    as (_ & _ & _ & Hiff & Hother).
  split; [by apply Hiff|by apply Hother].
Defined.
